(** * Parcel-tracking page controller (static/app.js)

    A shallow embedding of the browser-side view controller: the JSON
    values it consumes, the page elements it writes to, its three
    renderers, its banner and loading helpers, the submit and input
    listeners and the start-up hydration, followed by the properties of
    the specification that concern them. *)

From Stdlib Require Import String Ascii.
From Stdlib Require Import List NArith Bool Arith Lia.
Import ListNotations.

Local Set Warnings "-register-all".

(** ** JavaScript strings

    A JavaScript string is a sequence of UTF-16 code units.  Literals of
    the source are written as Rocq strings (UTF-8 bytes) and decoded. *)

Definition jsstring := list N.

Local Open Scope N_scope.

Fixpoint utf16_of_utf8 (bs : list N) : jsstring :=
  match bs with
  | [] => []
  | b0 :: r0 =>
    if b0 <? 0x80 then b0 :: utf16_of_utf8 r0
    else match r0 with
    | [] => [0xFFFD]
    | b1 :: r1 =>
      if b0 <? 0xE0
      then (N.lor (N.shiftl (N.land b0 0x1F) 6) (N.land b1 0x3F))
             :: utf16_of_utf8 r1
      else match r1 with
      | [] => [0xFFFD]
      | b2 :: r2 =>
        if b0 <? 0xF0
        then (N.lor (N.shiftl (N.land b0 0x0F) 12)
                (N.lor (N.shiftl (N.land b1 0x3F) 6) (N.land b2 0x3F)))
               :: utf16_of_utf8 r2
        else match r2 with
        | [] => [0xFFFD]
        | b3 :: r3 =>
          let cp := N.lor (N.shiftl (N.land b0 0x07) 18)
                      (N.lor (N.shiftl (N.land b1 0x3F) 12)
                         (N.lor (N.shiftl (N.land b2 0x3F) 6)
                            (N.land b3 0x3F))) in
          let v := cp - 0x10000 in
          (0xD800 + N.shiftr v 10) :: (0xDC00 + N.land v 0x3FF)
            :: utf16_of_utf8 r3
        end
      end
    end
  end.

Definition lit (s : string) : jsstring :=
  utf16_of_utf8 (map N_of_ascii (list_ascii_of_string s)).

Fixpoint jseqb (a b : jsstring) : bool :=
  match a, b with
  | [], [] => true
  | x :: a', y :: b' => (x =? y) && jseqb a' b'
  | _, _ => false
  end.

Definition is_empty (s : jsstring) : bool :=
  match s with [] => true | _ :: _ => false end.

(** [String.prototype.trim]: strips WhiteSpace and LineTerminator code
    units from both ends. *)
Definition is_white_space (c : N) : bool :=
  (c =? 0x09) || (c =? 0x0A) || (c =? 0x0B) || (c =? 0x0C) || (c =? 0x0D)
  || (c =? 0x20) || (c =? 0xA0) || (c =? 0x1680)
  || ((0x2000 <=? c) && (c <=? 0x200A))
  || (c =? 0x2028) || (c =? 0x2029) || (c =? 0x202F) || (c =? 0x205F)
  || (c =? 0x3000) || (c =? 0xFEFF).

Fixpoint trimStart (s : jsstring) : jsstring :=
  match s with
  | [] => []
  | c :: r => if is_white_space c then trimStart r else s
  end.

Definition trimEnd (s : jsstring) : jsstring := rev (trimStart (rev s)).

Definition trim (s : jsstring) : jsstring := trimEnd (trimStart s).

(** ** JSON values

    What [JSON.parse] and [response.json()] produce.  A number is carried
    by its canonical decimal rendering (Number::toString): the program
    observes a number only through its string form and through the test
    against zero, whose rendering is the single unit 0.  The members of an
    object are kept in the engine's own-property order. *)

Inductive json : Type :=
| JNull
| JBool (b : bool)
| JNum (text : jsstring)
| JStr (s : jsstring)
| JArr (items : list json)
| JObj (members : list (jsstring * json)).

Fixpoint own {A : Type} (members : list (jsstring * A)) (key : jsstring)
  : option A :=
  match members with
  | [] => None
  | (k, v) :: r => if jseqb k key then Some v else own r key
  end.

(** Abrupt completions.  An engine-raised TypeError is kept symbolic: its
    message text is the engine's business (see [host]). *)

Inductive type_error : Type :=
| NullRead (property : jsstring)
| NotAFunction (property : jsstring)
| NotPrimitive.

Inductive exn : Type :=
| TypeError (why : type_error)
| ErrorObject (message : jsstring)
| NotAnError.

Inductive completion (A : Type) : Type :=
| Normal (a : A)
| Throw (e : exn).

Arguments Normal {A} a.
Arguments Throw {A} e.

Definition cbind {A B} (c : completion A) (k : A -> completion B)
  : completion B :=
  match c with
  | Normal a => k a
  | Throw e => Throw e
  end.

(** The property names the controller reads.  None of them is defined on
    a built-in prototype, so a read on a non-object primitive or on an
    array yields [undefined] ([None]), and a read on [null] throws. *)
Inductive property : Type :=
| p_barcode | p_current_status | p_sender | p_receiver | p_events
| p_raw_response | p_error | p_date | p_time | p_description | p_location.

Definition property_name (p : property) : jsstring :=
  lit match p with
      | p_barcode => "barcode"
      | p_current_status => "current_status"
      | p_sender => "sender"
      | p_receiver => "receiver"
      | p_events => "events"
      | p_raw_response => "raw_response"
      | p_error => "error"
      | p_date => "date"
      | p_time => "time"
      | p_description => "description"
      | p_location => "location"
      end.

Definition Get (v : json) (p : property) : completion (option json) :=
  match v with
  | JNull => Throw (TypeError (NullRead (property_name p)))
  | JObj members => Normal (own members (property_name p))
  | _ => Normal None
  end.

(** [payload?.error] *)
Definition GetOptional (v : json) (p : property) : option json :=
  match v with
  | JObj members => own members (property_name p)
  | _ => None
  end.

(** ToBoolean on a value or [undefined]. *)
Definition ToBoolean (v : option json) : bool :=
  match v with
  | None => false
  | Some JNull => false
  | Some (JBool b) => b
  | Some (JNum t) => negb (jseqb t (lit "0"))
  | Some (JStr s) => negb (is_empty s)
  | Some (JArr _) => true
  | Some (JObj _) => true
  end.

(** [a || b] *)
Definition or_else (a : option json) (b : json) : json :=
  match a with
  | Some v => if ToBoolean a then v else b
  | None => b
  end.

(** [v.length] taken as a condition, for a truthy [v]: the length of an
    array or of a string, an object's own member of that name,
    [undefined] otherwise. *)
Definition has_length (v : json) : bool :=
  match v with
  | JArr items => match items with [] => false | _ :: _ => true end
  | JStr s => negb (is_empty s)
  | JObj members => ToBoolean (own members (lit "length"))
  | _ => false
  end.

(** ToString, as applied when a value is assigned to [textContent] or
    handed to [new Error].  An array joins its elements with commas
    ([null] elements as the empty string); a plain object prints as
    [[object Object]] unless it carries an own member [toString], which
    is not callable and leaves ToPrimitive without a result. *)
Fixpoint ToString (v : json) : completion jsstring :=
  match v with
  | JNull => Normal (lit "null")
  | JBool true => Normal (lit "true")
  | JBool false => Normal (lit "false")
  | JNum t => Normal t
  | JStr s => Normal s
  | JArr items =>
    let element (x : json) :=
      match x with
      | JNull => Normal []
      | _ => ToString x
      end in
    (fix join (l : list json) : completion jsstring :=
       match l with
       | [] => Normal []
       | x :: r =>
         match r with
         | [] => element x
         | _ :: _ =>
           cbind (element x) (fun a =>
           cbind (join r) (fun b => Normal (a ++ lit "," ++ b)))
         end
       end) items
  | JObj members =>
    match own members (lit "toString") with
    | None => Normal (lit "[object Object]")
    | Some _ => Throw (TypeError NotPrimitive)
    end
  end.

(** [JSON.stringify(value, null, space)] on a parsed JSON value. *)

Definition hex_digit (n : N) : N := if n <? 10 then 48 + n else 87 + n.

Definition unicode_escape (c : N) : jsstring :=
  [92; 117; hex_digit (c / 4096 mod 16); hex_digit (c / 256 mod 16);
   hex_digit (c / 16 mod 16); hex_digit (c mod 16)].

Definition escape_unit (c : N) : jsstring :=
  if c =? 8 then [92; 98]
  else if c =? 9 then [92; 116]
  else if c =? 10 then [92; 110]
  else if c =? 12 then [92; 102]
  else if c =? 13 then [92; 114]
  else if c =? 34 then [92; 34]
  else if c =? 92 then [92; 92]
  else if c <? 32 then unicode_escape c
  else [c].

Definition is_lead (c : N) : bool := (0xD800 <=? c) && (c <=? 0xDBFF).
Definition is_trail (c : N) : bool := (0xDC00 <=? c) && (c <=? 0xDFFF).

Fixpoint quote_units (s : jsstring) : jsstring :=
  match s with
  | [] => []
  | c :: r =>
    if is_lead c then
      match r with
      | d :: r' =>
        if is_trail d then c :: d :: quote_units r'
        else unicode_escape c ++ quote_units r
      | [] => unicode_escape c
      end
    else if is_trail c then unicode_escape c ++ quote_units r
    else escape_unit c ++ quote_units r
  end.

Definition QuoteJSONString (s : jsstring) : jsstring :=
  34 :: quote_units s ++ [34].

Fixpoint join_with (sep : jsstring) (parts : list jsstring) : jsstring :=
  match parts with
  | [] => []
  | p :: r =>
    match r with
    | [] => p
    | _ :: _ => p ++ sep ++ join_with sep r
    end
  end.

Definition bracket (opening closing gap stepback indent : jsstring)
  (parts : list jsstring) : jsstring :=
  match parts with
  | [] => opening ++ closing
  | _ :: _ =>
    if is_empty gap then opening ++ join_with (lit ",") parts ++ closing
    else opening ++ [10] ++ indent
         ++ join_with ([44; 10] ++ indent) parts
         ++ [10] ++ stepback ++ closing
  end.

Fixpoint SerializeJSONProperty (gap indent : jsstring) (v : json)
  : jsstring :=
  match v with
  | JNull => lit "null"
  | JBool true => lit "true"
  | JBool false => lit "false"
  | JNum t => t
  | JStr s => QuoteJSONString s
  | JArr items =>
    bracket (lit "[") (lit "]") gap indent (indent ++ gap)
      (map (SerializeJSONProperty gap (indent ++ gap)) items)
  | JObj members =>
    bracket (lit "{") (lit "}") gap indent (indent ++ gap)
      (map (fun kv : jsstring * json =>
              let (k, x) := kv in
              QuoteJSONString k ++ lit ":"
              ++ (if is_empty gap then [] else [32])
              ++ SerializeJSONProperty gap (indent ++ gap) x)
         members)
  end.

Definition JSON_stringify (v : json) (space : nat) : jsstring :=
  SerializeJSONProperty (repeat 32 (Nat.min space 10)) [] v.

(** ** Page elements

    The controller looks its elements up once, by selector, and any of
    them may be missing.  The barcode field is searched inside the form
    and the [pre] inside the raw section, so each exists only with its
    parent.  The elements are taken to be distinct and no display
    region contains another consumed element. *)

(** [style.animationDelay]: [index * step] seconds, the step in
    hundredths (cosmetic). *)
Record stagger : Type := { stagger_index : nat; stagger_step : nat }.

Inductive node : Type :=
| Text (data : jsstring)
| Element (tag className : string) (animationDelay : option stagger)
    (childNodes : list node).

(** The child list left by an assignment to [textContent]. *)
Definition text (s : jsstring) : list node :=
  match s with
  | [] => []
  | _ :: _ => [Text s]
  end.

Record banner : Type := { textContent : jsstring; hidden : bool }.

Record input : Type := { input_value : jsstring; has_error : bool }.

Record raw_section : Type := { raw_hidden : bool; pre : option jsstring }.

Record page : Type := {
  form : option (option input);
  resultsPanel : option bool;
  summaryContainer : option (list node);
  timelineContainer : option (list node);
  rawSection : option raw_section;
  errorBox : option banner;
  successBox : option banner;
  loadingOverlay : option bool
}.

Definition barcodeInput (d : page) : option input :=
  match form d with
  | Some i => i
  | None => None
  end.

Definition rawPre (d : page) : option jsstring :=
  match rawSection d with
  | Some s => pre s
  | None => None
  end.

Definition set_barcodeInput (i : input) (d : page) : page :=
  {| form := match form d with Some (Some _) => Some (Some i) | f => f end;
     resultsPanel := resultsPanel d;
     summaryContainer := summaryContainer d;
     timelineContainer := timelineContainer d;
     rawSection := rawSection d; errorBox := errorBox d;
     successBox := successBox d; loadingOverlay := loadingOverlay d |}.

Definition set_resultsPanel (v : option bool) (d : page) : page :=
  {| form := form d; resultsPanel := v;
     summaryContainer := summaryContainer d;
     timelineContainer := timelineContainer d;
     rawSection := rawSection d; errorBox := errorBox d;
     successBox := successBox d; loadingOverlay := loadingOverlay d |}.

Definition set_summaryContainer (v : option (list node)) (d : page) : page :=
  {| form := form d; resultsPanel := resultsPanel d;
     summaryContainer := v;
     timelineContainer := timelineContainer d;
     rawSection := rawSection d; errorBox := errorBox d;
     successBox := successBox d; loadingOverlay := loadingOverlay d |}.

Definition set_timelineContainer (v : option (list node)) (d : page) : page :=
  {| form := form d; resultsPanel := resultsPanel d;
     summaryContainer := summaryContainer d;
     timelineContainer := v;
     rawSection := rawSection d; errorBox := errorBox d;
     successBox := successBox d; loadingOverlay := loadingOverlay d |}.

Definition set_rawSection (v : option raw_section) (d : page) : page :=
  {| form := form d; resultsPanel := resultsPanel d;
     summaryContainer := summaryContainer d;
     timelineContainer := timelineContainer d;
     rawSection := v; errorBox := errorBox d;
     successBox := successBox d; loadingOverlay := loadingOverlay d |}.

Definition set_errorBox (v : option banner) (d : page) : page :=
  {| form := form d; resultsPanel := resultsPanel d;
     summaryContainer := summaryContainer d;
     timelineContainer := timelineContainer d;
     rawSection := rawSection d; errorBox := v;
     successBox := successBox d; loadingOverlay := loadingOverlay d |}.

Definition set_successBox (v : option banner) (d : page) : page :=
  {| form := form d; resultsPanel := resultsPanel d;
     summaryContainer := summaryContainer d;
     timelineContainer := timelineContainer d;
     rawSection := rawSection d; errorBox := errorBox d;
     successBox := v; loadingOverlay := loadingOverlay d |}.

Definition set_loadingOverlay (v : option bool) (d : page) : page :=
  {| form := form d; resultsPanel := resultsPanel d;
     summaryContainer := summaryContainer d;
     timelineContainer := timelineContainer d;
     rawSection := rawSection d; errorBox := errorBox d;
     successBox := successBox d; loadingOverlay := v |}.

(** ** Statements: page state threaded through, abrupt completion kept *)

Definition action (A : Type) : Type := page -> page * completion A.

Definition ret {A} (a : A) : action A := fun d => (d, Normal a).

Definition bind {A B} (m : action A) (k : A -> action B) : action B :=
  fun d =>
    match m d with
    | (d', Normal a) => k a d'
    | (d', Throw e) => (d', Throw e)
    end.

Definition throw {A} (e : exn) : action A := fun d => (d, Throw e).

Definition lift {A} (c : completion A) : action A := fun d => (d, c).

Definition read {A} (f : page -> A) : action A := fun d => (d, Normal (f d)).

Definition modify (f : page -> page) : action unit :=
  fun d => (f d, Normal tt).

Definition try_catch (body : action unit) (handler : exn -> action unit)
  : action unit :=
  fun d =>
    match body d with
    | (d', Normal a) => (d', Normal a)
    | (d', Throw e) => handler e d'
    end.

Definition try_finally (body cleanup : action unit) : action unit :=
  fun d =>
    match body d with
    | (d', c) =>
      match cleanup d' with
      | (d'', Normal _) => (d'', c)
      | (d'', Throw e) => (d'', Throw e)
      end
    end.

Declare Scope action_scope.
Delimit Scope action_scope with action.
Notation "x <- m ;; k" := (bind m (fun x => k))
  (at level 61, m at next level, right associativity) : action_scope.
Notation "m ;; k" := (bind m (fun _ => k))
  (at level 61, right associativity) : action_scope.
Local Open Scope action_scope.

(** ** The controller *)

(** What the host environment decides: whether [window.fetch] exists and
    the message text of the TypeErrors the engine raises. *)
Record host : Type := {
  hasFetch : bool;
  type_error_message : type_error -> jsstring
}.

(** An embedded [script] element, by what [JSON.parse] makes of its
    trimmed text. *)
Inductive script : Type :=
| Blank
| Holds (v : json)
| Malformed.

Record embedded : Type := {
  initial_tracking : option script;
  initial_error : option script
}.

(** The outcome of the one network call: the promise rejects, or a
    response arrives whose body [response.json()] parses or rejects. *)
Inductive body : Type :=
| Parsed (payload : json)
| Unparsable (failure : exn).

Inductive fetch_outcome : Type :=
| Rejected (failure : exn)
| Responded (ok : bool) (b : body).

Record request : Type := {
  url : string;
  method : string;
  request_body : jsstring
}.

Definition EMPTY_TITLE : jsstring :=
  Eval vm_compute in lit "هنوز اطلاعاتی ثبت نشده است".
Definition EMPTY_MESSAGE : jsstring :=
  Eval vm_compute in
  lit "پس از ثبت اولین رویداد برای مرسوله، جزئیات در این بخش نمایش داده می‌شود.".
Definition LABEL_BARCODE : jsstring := Eval vm_compute in lit "کد رهگیری".
Definition LABEL_STATUS : jsstring := Eval vm_compute in lit "وضعیت فعلی".
Definition LABEL_SENDER : jsstring := Eval vm_compute in lit "فرستنده".
Definition LABEL_RECEIVER : jsstring := Eval vm_compute in lit "گیرنده".
Definition NO_SUMMARY_TITLE : jsstring :=
  Eval vm_compute in lit "اطلاعات خلاصه‌ای یافت نشد".
Definition NO_SUMMARY_MESSAGE : jsstring :=
  Eval vm_compute in
  lit "پس از ثبت جزئیات بیشتر، خلاصه وضعیت در این بخش به نمایش درخواهد آمد.".
Definition DASH : jsstring := Eval vm_compute in lit "-".
Definition UNKNOWN_STATUS : jsstring := Eval vm_compute in lit "وضعیت نامشخص".
Definition UNKNOWN_LOCATION : jsstring := Eval vm_compute in lit "مکان نامشخص".
Definition SUCCESS_MESSAGE : jsstring :=
  Eval vm_compute in lit "اطلاعات مرسوله با موفقیت به‌روزرسانی شد.".
Definition ENTER_CODE_MESSAGE : jsstring :=
  Eval vm_compute in lit "لطفاً کد رهگیری را وارد کنید.".
Definition CANNOT_RETRIEVE_MESSAGE : jsstring :=
  Eval vm_compute in lit "امکان دریافت اطلاعات وجود ندارد.".
Definition UNKNOWN_ERROR_MESSAGE : jsstring :=
  Eval vm_compute in lit "خطای ناشناخته رخ داد.".

Definition readJSONScript (s : option script) : json :=
  match s with
  | None => JNull
  | Some Blank => JNull
  | Some (Holds v) => v
  | Some Malformed => JNull
  end.

Definition toggleLoading (state : bool) : action unit :=
  overlay <- read loadingOverlay ;;
  match overlay with
  | None => ret tt
  | Some _ => modify (set_loadingOverlay (Some (negb state)))
  end.

Definition clearSuccess : action unit :=
  box <- read successBox ;;
  match box with
  | Some _ =>
    modify (set_successBox (Some {| textContent := []; hidden := true |}))
  | None => ret tt
  end.

Definition showError (message : json) : action unit :=
  box <- read errorBox ;;
  match box with
  | None => ret tt
  | Some _ =>
    shown <- lift (ToString (or_else (Some message) (JStr []))) ;;
    modify (set_errorBox
      (Some {| textContent := shown;
               hidden := negb (ToBoolean (Some message)) |})) ;;
    field <- read barcodeInput ;;
    match field with
    | Some i =>
      modify (set_barcodeInput
        {| input_value := input_value i;
           has_error := ToBoolean (Some message) |})
    | None => ret tt
    end ;;
    panel <- read resultsPanel ;;
    match panel with
    | Some _ =>
      if ToBoolean (Some message) then modify (set_resultsPanel (Some false))
      else ret tt
    | None => ret tt
    end
  end.

Definition showSuccess (message : jsstring) : action unit :=
  box <- read successBox ;;
  match box with
  | None => ret tt
  | Some _ =>
    modify (set_successBox
      (Some {| textContent := message; hidden := is_empty message |}))
  end.

Definition empty_state (title message : jsstring) : node :=
  Element "div" "empty-state" None
    [Element "h3" EmptyString None (text title);
     Element "p" EmptyString None (text message)].

(** [container.appendChild(child)] on the two display regions *)
Definition append_summary (children : list node) (d : page) : page :=
  match summaryContainer d with
  | Some old => set_summaryContainer (Some (old ++ children)) d
  | None => d
  end.

Definition append_timeline (children : list node) (d : page) : page :=
  match timelineContainer d with
  | Some old => set_timelineContainer (Some (old ++ children)) d
  | None => d
  end.

Definition renderEmpty : action unit :=
  container <- read timelineContainer ;;
  match container with
  | None => ret tt
  | Some _ =>
    modify (set_timelineContainer (Some [])) ;;
    modify (append_timeline [empty_state EMPTY_TITLE EMPTY_MESSAGE])
  end.

(** [array.forEach((x, index) => ...)] building one node per element;
    the first abrupt element ends the loop. *)
Fixpoint forEach {A : Type} (f : nat -> A -> completion node) (index : nat)
  (l : list A) : completion (list node) :=
  match l with
  | [] => Normal []
  | x :: r =>
    cbind (f index x) (fun n =>
    cbind (forEach f (S index) r) (fun ns => Normal (n :: ns)))
  end.

(** [element.textContent = v]: [null] and [undefined] give the empty
    string, anything else its ToString. *)
Definition as_text (v : option json) : completion jsstring :=
  match v with
  | None => Normal []
  | Some JNull => Normal []
  | Some x => ToString x
  end.

Definition summary_item (index : nat) (item : jsstring * option json)
  : completion node :=
  cbind (as_text (snd item)) (fun shown =>
  Normal
    (Element "div" "summary-item reveal"
       (Some {| stagger_index := index; stagger_step := 8 |})
       [Element "span" "summary-label" None (text (fst item));
        Element "span" "summary-value" None (text shown)])).

Definition renderSummary (data : json) : action unit :=
  container <- read summaryContainer ;;
  match container with
  | None => ret tt
  | Some _ =>
    modify (set_summaryContainer (Some [])) ;;
    barcode <- lift (Get data p_barcode) ;;
    current_status <- lift (Get data p_current_status) ;;
    sender <- lift (Get data p_sender) ;;
    receiver <- lift (Get data p_receiver) ;;
    let items :=
      filter (fun item : jsstring * option json => ToBoolean (snd item))
        [(LABEL_BARCODE, barcode); (LABEL_STATUS, current_status);
         (LABEL_SENDER, sender); (LABEL_RECEIVER, receiver)] in
    match items with
    | [] =>
      modify (append_summary [empty_state NO_SUMMARY_TITLE NO_SUMMARY_MESSAGE])
    | _ :: _ =>
      fragment <- lift (forEach summary_item 0 items) ;;
      modify (append_summary fragment)
    end
  end.

(** [x || fallback] assigned to a [textContent] *)
Definition text_or (v : option json) (fallback : jsstring)
  : completion jsstring :=
  ToString (or_else v (JStr fallback)).

Definition timeline_item (index : nat) (event : json) : completion node :=
  cbind (Get event p_date) (fun date =>
  cbind (text_or date DASH) (fun date_text =>
  cbind (Get event p_time) (fun time =>
  cbind (text_or time DASH) (fun time_text =>
  cbind (Get event p_description) (fun description =>
  cbind (text_or description UNKNOWN_STATUS) (fun title_text =>
  cbind (Get event p_location) (fun location =>
  cbind (text_or location UNKNOWN_LOCATION) (fun location_text =>
  Normal
    (Element "li" "timeline-item reveal"
       (Some {| stagger_index := index; stagger_step := 6 |})
       [Element "div" "timeline-meta" None
          [Element "span" "timeline-date" None (text date_text);
           Element "span" "timeline-time" None (text time_text)];
        Element "div" "timeline-content" None
          [Element "h3" EmptyString None (text title_text);
           Element "p" "muted" None (text location_text)]]))))))))).

Definition renderTimeline (events : option json) : action unit :=
  container <- read timelineContainer ;;
  match container with
  | None => ret tt
  | Some _ =>
    modify (set_timelineContainer (Some [])) ;;
    match events with
    | None => renderEmpty
    | Some v =>
      if negb (ToBoolean events) || negb (has_length v) then renderEmpty
      else
        match v with
        | JArr items =>
          list <- lift (forEach timeline_item 0 items) ;;
          modify (append_timeline
                    [Element "ol" "timeline-list" None list])
        | _ => throw (TypeError (NotAFunction (lit "events.forEach")))
        end
    end
  end.

Definition renderRawResponse (data : json) : action unit :=
  section <- read rawSection ;;
  match section with
  | None => ret tt
  | Some s =>
    match pre s with
    | None => ret tt
    | Some _ =>
      raw_response <- lift (Get data p_raw_response) ;;
      let payload := or_else raw_response data in
      modify (set_rawSection
        (Some {| raw_hidden := false;
                 pre := Some (JSON_stringify payload 2) |}))
    end
  end.

Definition renderResult (data : json) : action unit :=
  panel <- read resultsPanel ;;
  match panel with
  | None => ret tt
  | Some _ =>
    modify (set_resultsPanel (Some false)) ;;
    clearSuccess ;;
    showError (JStr []) ;;
    renderSummary data ;;
    events <- lift (Get data p_events) ;;
    renderTimeline (Some (or_else events (JArr []))) ;;
    renderRawResponse data ;;
    showSuccess SUCCESS_MESSAGE
  end.

Definition hydrateInitialState (scripts : embedded) : action unit :=
  let initialResult := readJSONScript (initial_tracking scripts) in
  let initialError := readJSONScript (initial_error scripts) in
  (if ToBoolean (Some initialResult)
   then renderResult initialResult ;; clearSuccess
   else ret tt) ;;
  (if ToBoolean (Some initialError)
   then showError initialError
   else ret tt).

(** The [input] listener of the barcode field, installed only when the
    field exists; it runs after the field has taken its new value. *)
Definition on_input : action unit :=
  field <- read barcodeInput ;;
  match field with
  | None => ret tt
  | Some i =>
    (if is_empty (trim (input_value i))
     then modify (set_barcodeInput
                    {| input_value := input_value i; has_error := false |})
     else ret tt) ;;
    clearSuccess ;;
    showError (JStr [])
  end.

(** The [submit] listener, installed only when the form exists and the
    host has [fetch].  It is asynchronous: [submit_begin] runs up to the
    call of [fetch] and yields the request it issues, if any;
    [submit_settle] is the rest of the [try] statement, resumed when the
    call has settled. *)
Definition track_request (barcode : jsstring) : request :=
  {| url := "/api/track";
     method := "POST";
     request_body := JSON_stringify (JObj [(lit "barcode", JStr barcode)]) 0 |}.

Definition submit_begin : action (option request) :=
  clearSuccess ;;
  field <- read barcodeInput ;;
  match option_map (fun i => trim (input_value i)) field with
  | Some (c :: r) =>
    toggleLoading true ;;
    showError (JStr []) ;;
    ret (Some (track_request (c :: r)))
  | _ =>
    showError (JStr ENTER_CODE_MESSAGE) ;;
    ret None
  end.

Section Host.

Variable h : host.

(** [error instanceof Error ? error.message : ...] *)
Definition message_of (error : exn) : jsstring :=
  match error with
  | ErrorObject message => message
  | TypeError why => type_error_message h why
  | NotAnError => UNKNOWN_ERROR_MESSAGE
  end.

Definition submit_settle (outcome : fetch_outcome) : action unit :=
  try_finally
    (try_catch
       (match outcome with
        | Rejected failure => throw failure
        | Responded ok (Unparsable failure) => throw failure
        | Responded ok (Parsed payload) =>
          if negb ok then
            message <- lift (ToString
                         (or_else (GetOptional payload p_error)
                            (JStr CANNOT_RETRIEVE_MESSAGE))) ;;
            throw (ErrorObject message)
          else renderResult payload
        end)
       (fun error => showError (JStr (message_of error))))
    (toggleLoading false).

(** A submission whose network call settles before any other event. *)
Definition submit (outcome : fetch_outcome) : action (option request) :=
  issued <- submit_begin ;;
  match issued with
  | None => ret None
  | Some q => submit_settle outcome ;; ret (Some q)
  end.

Definition listens_input (d : page) : bool :=
  match barcodeInput d with Some _ => true | None => false end.

Definition listens_submit (d : page) : bool :=
  match form d with Some _ => hasFetch h | None => false end.

End Host.

(** ** The data model of the specification

    A TrackingResult is a JSON object whose four summary fields are
    strings or absent, whose [events] is absent or a list of
    TimelineEvents and whose [raw_response] is any value; a
    TimelineEvent is a JSON object whose four fields are strings or
    absent.  A field holding [null] counts as absent. *)

Definition optional_string (v : option json) : bool :=
  match v with
  | None => true
  | Some JNull => true
  | Some (JStr _) => true
  | Some _ => false
  end.

Definition is_timeline_event (e : json) : bool :=
  match e with
  | JObj _ =>
    forallb (fun p => optional_string (GetOptional e p))
      [p_date; p_time; p_description; p_location]
  | _ => false
  end.

Definition is_event_sequence (events : option json) : bool :=
  match events with
  | None => true
  | Some JNull => true
  | Some (JArr items) => forallb is_timeline_event items
  | Some _ => false
  end.

Definition is_tracking_result (data : json) : bool :=
  match data with
  | JObj _ =>
    forallb (fun p => optional_string (GetOptional data p))
      [p_barcode; p_current_status; p_sender; p_receiver]
    && is_event_sequence (GetOptional data p_events)
  | _ => false
  end.

(** The events of a sequence, none when it is absent. *)
Definition events_of (events : option json) : list json :=
  match events with
  | Some (JArr items) => items
  | _ => []
  end.

(** The string a field holds, when it holds a non-empty one. *)
Definition nonempty_string (v : option json) : option jsstring :=
  match v with
  | Some (JStr (c :: r)) => Some (c :: r)
  | _ => None
  end.

(** *** Summary view, after the specification *)

Definition summary_fields : list (jsstring * property) :=
  [(LABEL_BARCODE, p_barcode); (LABEL_STATUS, p_current_status);
   (LABEL_SENDER, p_sender); (LABEL_RECEIVER, p_receiver)].

(** How many of the four fields are non-empty. *)
Definition nonempty_count (data : json) : nat :=
  count_occ bool_dec
    (map (fun lp : jsstring * property =>
            match nonempty_string (GetOptional data (snd lp)) with
            | Some _ => true
            | None => false
            end) summary_fields)
    true.

(** The (label, value) pairs of the non-empty fields, in field order. *)
Fixpoint present_pairs (data : json) (fields : list (jsstring * property))
  : list (jsstring * jsstring) :=
  match fields with
  | [] => []
  | (label, p) :: r =>
    match nonempty_string (GetOptional data p) with
    | Some s => (label, s) :: present_pairs data r
    | None => present_pairs data r
    end
  end.

Definition summary_entry (index : nat) (pair : jsstring * jsstring) : node :=
  Element "div" "summary-item reveal"
    (Some {| stagger_index := index; stagger_step := 8 |})
    [Element "span" "summary-label" None (text (fst pair));
     Element "span" "summary-value" None [Text (snd pair)]].

Fixpoint numbered {A : Type} (f : nat -> A -> node) (index : nat)
  (l : list A) : list node :=
  match l with
  | [] => []
  | x :: r => f index x :: numbered f (S index) r
  end.

Definition summary_placeholder : node :=
  empty_state NO_SUMMARY_TITLE NO_SUMMARY_MESSAGE.

Definition summary_view (data : json) : list node :=
  match present_pairs data summary_fields with
  | [] => [summary_placeholder]
  | pairs => numbered summary_entry 0 pairs
  end.

(** *** Timeline view, after the specification *)

(** A field's string, or its placeholder when the field is absent or
    empty. *)
Definition shown_or (v : option json) (placeholder : jsstring) : jsstring :=
  match nonempty_string v with
  | Some s => s
  | None => placeholder
  end.

Definition timeline_entry (index : nat) (event : json) : node :=
  Element "li" "timeline-item reveal"
    (Some {| stagger_index := index; stagger_step := 6 |})
    [Element "div" "timeline-meta" None
       [Element "span" "timeline-date" None
          [Text (shown_or (GetOptional event p_date) DASH)];
        Element "span" "timeline-time" None
          [Text (shown_or (GetOptional event p_time) DASH)]];
     Element "div" "timeline-content" None
       [Element "h3" EmptyString None
          [Text (shown_or (GetOptional event p_description) UNKNOWN_STATUS)];
        Element "p" "muted" None
          [Text (shown_or (GetOptional event p_location) UNKNOWN_LOCATION)]]].

Definition timeline_placeholder : node :=
  empty_state EMPTY_TITLE EMPTY_MESSAGE.

Definition timeline_view (events : list json) : list node :=
  match events with
  | [] => [timeline_placeholder]
  | _ :: _ =>
    [Element "ol" "timeline-list" None (numbered timeline_entry 0 events)]
  end.

(** *** Raw view *)

(** The values JavaScript takes for false. *)
Definition falsy (v : json) : bool :=
  match v with
  | JNull => true
  | JBool b => negb b
  | JNum t => jseqb t [48]
  | JStr s => is_empty s
  | JArr _ => false
  | JObj _ => false
  end.

(** What the raw panel serializes: [raw_response], or the whole result
    when that member is absent or falsy. *)
Definition raw_payload (data : json) : json :=
  match GetOptional data p_raw_response with
  | None => data
  | Some v => if falsy v then data else v
  end.

Definition raw_view (data : json) : raw_section :=
  {| raw_hidden := false; pre := Some (JSON_stringify (raw_payload data) 2) |}.

(** ** Pages *)

(** Every element of the DOM contract is there. *)
Definition complete (d : page) : bool :=
  match barcodeInput d, resultsPanel d, summaryContainer d,
        timelineContainer d, rawPre d, errorBox d, successBox d,
        loadingOverlay d with
  | Some _, Some _, Some _, Some _, Some _, Some _, Some _, Some _ => true
  | _, _, _, _, _, _, _, _ => false
  end.

(** The barcode the field holds once trimmed, when not empty. *)
Definition entered_barcode (d : page) : option jsstring :=
  match barcodeInput d with
  | Some i =>
    match trim (input_value i) with
    | [] => None
    | c :: r => Some (c :: r)
    end
  | None => None
  end.

(** The input field carries the error flag. *)
Definition flagged (d : page) : option bool :=
  option_map has_error (barcodeInput d).

(** What a page shows after a result was rendered and announced. *)
Definition shows_result (data : json) (d : page) : Prop :=
  resultsPanel d = Some false
  /\ errorBox d = Some {| textContent := []; hidden := true |}
  /\ flagged d = Some false
  /\ summaryContainer d = Some (summary_view data)
  /\ timelineContainer d
     = Some (timeline_view (events_of (GetOptional data p_events)))
  /\ rawSection d = Some (raw_view data)
  /\ successBox d
     = Some {| textContent := SUCCESS_MESSAGE; hidden := false |}.

(** The loading indicator is off. *)
Definition loading_off (d : page) : Prop := loadingOverlay d = Some true.

(** A page as the server delivers it: nothing shown yet, [code] typed
    into the field. *)
Definition fresh_page (code : jsstring) : page :=
  {| form := Some (Some {| input_value := code; has_error := false |});
     resultsPanel := Some true;
     summaryContainer := Some [];
     timelineContainer := Some [];
     rawSection := Some {| raw_hidden := true; pre := Some [] |};
     errorBox := Some {| textContent := []; hidden := true |};
     successBox := Some {| textContent := []; hidden := true |};
     loadingOverlay := Some true |}.

(** The message texts of one engine (V8). *)
Definition v8_message (why : type_error) : jsstring :=
  match why with
  | NullRead p =>
    lit "Cannot read properties of null (reading '" ++ p ++ lit "')"
  | NotAFunction p => p ++ lit " is not a function"
  | NotPrimitive => lit "Cannot convert object to primitive value"
  end.

Definition chrome : host :=
  {| hasFetch := true; type_error_message := v8_message |}.

(** The field takes a new value and its [input] listener runs. *)
Definition user_types (s : jsstring) : action unit :=
  field <- read barcodeInput ;;
  match field with
  | Some i =>
    modify (set_barcodeInput
              {| input_value := s; has_error := has_error i |}) ;;
    on_input
  | None => ret tt
  end.

(** ** States reached by the helpers

    Each helper, run on any page, ends normally in a state given here in
    closed form; a missing element leaves the page as it is. *)

Definition success_cleared (d : page) : page :=
  match successBox d with
  | Some _ => set_successBox (Some {| textContent := []; hidden := true |}) d
  | None => d
  end.

Definition success_shown (message : jsstring) (d : page) : page :=
  match successBox d with
  | Some _ =>
    set_successBox
      (Some {| textContent := message; hidden := is_empty message |}) d
  | None => d
  end.

Definition loading_set (state : bool) (d : page) : page :=
  match loadingOverlay d with
  | Some _ => set_loadingOverlay (Some (negb state)) d
  | None => d
  end.

Definition mark_field (flag : bool) (d : page) : page :=
  match barcodeInput d with
  | Some i =>
    set_barcodeInput {| input_value := input_value i; has_error := flag |} d
  | None => d
  end.

Definition reveal_panel (d : page) : page :=
  match resultsPanel d with
  | Some _ => set_resultsPanel (Some false) d
  | None => d
  end.

Definition error_set (shown : jsstring) (visible : bool) (d : page) : page :=
  match errorBox d with
  | None => d
  | Some _ =>
    let d1 :=
      mark_field visible
        (set_errorBox
           (Some {| textContent := shown; hidden := negb visible |}) d)
    in if visible then reveal_panel d1 else d1
  end.

Definition error_shown (message : jsstring) (d : page) : page :=
  error_set message (negb (is_empty message)) d.

Definition summary_rendered (data : json) (d : page) : page :=
  match summaryContainer d with
  | Some _ => set_summaryContainer (Some (summary_view data)) d
  | None => d
  end.

Definition timeline_rendered (events : list json) (d : page) : page :=
  match timelineContainer d with
  | Some _ => set_timelineContainer (Some (timeline_view events)) d
  | None => d
  end.

Definition raw_rendered (data : json) (d : page) : page :=
  match rawPre d with
  | Some _ => set_rawSection (Some (raw_view data)) d
  | None => d
  end.

Definition result_rendered (data : json) (d : page) : page :=
  match resultsPanel d with
  | None => d
  | Some _ =>
    success_shown SUCCESS_MESSAGE
      (raw_rendered data
         (timeline_rendered (events_of (GetOptional data p_events))
            (summary_rendered data
               (error_shown []
                  (success_cleared (set_resultsPanel (Some false) d))))))
  end.

(** The [items] array of [renderSummary] once filtered. *)
Definition summary_items (members : list (jsstring * json))
  : list (jsstring * option json) :=
  filter (fun item : jsstring * option json => ToBoolean (snd item))
    (map (fun lp : jsstring * property =>
            (fst lp, own members (property_name (snd lp)))) summary_fields).

(** A statement that never writes the loading indicator, whether it
    ends normally or abruptly. *)
Definition keeps_loading {A : Type} (m : action A) : Prop :=
  forall d, loadingOverlay (fst (m d)) = loadingOverlay d.

(** A TrackingResult with two non-empty summary fields, an empty one
    and two events. *)
Definition sample_result : json :=
  JObj [(lit "barcode", JStr (lit "PKG1"));
        (lit "current_status", JStr (lit "in transit"));
        (lit "sender", JStr []);
        (lit "events",
         JArr [JObj [(lit "date", JStr (lit "1403/01/02"));
                     (lit "description", JStr (lit "accepted"))];
               JObj [(lit "time", JStr (lit "10:30"));
                     (lit "location", JNull)]])].

(** The payload of the raw view as the specification words it: the
    whole result exactly when [raw_response] is absent. *)
Definition stated_raw_payload (data : json) : json :=
  match GetOptional data p_raw_response with
  | Some v => v
  | None => data
  end.

(** ** Missing elements and the events of a page *)

Inductive element : Type :=
| Form | BarcodeInput | ResultsPanel | SummaryContainer | TimelineContainer
| RawSection | RawPre | ErrorBox | SuccessBox | LoadingOverlay.

(** The page with one element taken out of the markup. *)
Definition without (e : element) (d : page) : page :=
  {| form := match e with
             | Form => None
             | BarcodeInput =>
               match form d with Some _ => Some None | None => None end
             | _ => form d
             end;
     resultsPanel :=
       match e with ResultsPanel => None | _ => resultsPanel d end;
     summaryContainer :=
       match e with SummaryContainer => None | _ => summaryContainer d end;
     timelineContainer :=
       match e with TimelineContainer => None | _ => timelineContainer d end;
     rawSection :=
       match e with
       | RawSection => None
       | RawPre =>
         match rawSection d with
         | Some s => Some {| raw_hidden := raw_hidden s; pre := None |}
         | None => None
         end
       | _ => rawSection d
       end;
     errorBox := match e with ErrorBox => None | _ => errorBox d end;
     successBox := match e with SuccessBox => None | _ => successBox d end;
     loadingOverlay :=
       match e with LoadingOverlay => None | _ => loadingOverlay d end |}.

(** The elements whose absence silences their own updates and nothing
    else. *)
Definition self_contained (e : element) : bool :=
  match e with
  | SummaryContainer | TimelineContainer | RawSection | SuccessBox
  | LoadingOverlay => true
  | _ => false
  end.

(** What happens to a page: it loads, the visitor edits the field,
    the form is submitted, a network call settles. *)
Inductive event : Type :=
| Load (scripts : embedded)
| Edit (s : jsstring)
| Submit
| Settle (outcome : fetch_outcome).

Definition react (h : host) (ev : event) : action (option request) :=
  match ev with
  | Load scripts => hydrateInitialState scripts ;; ret None
  | Edit s => user_types s ;; ret None
  | Submit =>
    fun d => if listens_submit h d then submit_begin d else (d, Normal None)
  | Settle outcome => submit_settle h outcome ;; ret None
  end.

Definition printable (v : json) : bool :=
  match ToString v with
  | Normal _ => true
  | Throw _ => false
  end.

(** Events within the external contracts: an embedded result or a
    successful response body is a TrackingResult (or, embedded, a falsy
    value), an embedded error has a string form. *)
Definition expected (ev : event) : bool :=
  match ev with
  | Load scripts =>
    let result := readJSONScript (initial_tracking scripts) in
    (negb (ToBoolean (Some result)) || is_tracking_result result)
    && printable (readJSONScript (initial_error scripts))
  | Settle (Responded true (Parsed data)) => is_tracking_result data
  | _ => true
  end.

(** The states the handlers reach on expected events, in closed form. *)

Definition hydrated (scripts : embedded) (d : page) : page :=
  let result := readJSONScript (initial_tracking scripts) in
  let error := readJSONScript (initial_error scripts) in
  let d1 :=
    if ToBoolean (Some result) then success_cleared (result_rendered result d)
    else d in
  if ToBoolean (Some error) then
    match ToString error with
    | Normal m => error_set m true d1
    | Throw _ => d1
    end
  else d1.

Definition edited (s : jsstring) (d : page) : page :=
  match barcodeInput d with
  | None => d
  | Some i =>
    error_shown []
      (success_cleared
         (set_barcodeInput
            {| input_value := s;
               has_error :=
                 if is_empty (trim s) then false else has_error i |} d))
  end.

Definition begun (d : page) : page :=
  match entered_barcode d with
  | Some _ => error_shown [] (loading_set true (success_cleared d))
  | None => error_shown ENTER_CODE_MESSAGE (success_cleared d)
  end.

Definition settled (h : host) (outcome : fetch_outcome) (d : page) : page :=
  loading_set false
    match outcome with
    | Rejected failure => error_shown (message_of h failure) d
    | Responded _ (Unparsable failure) =>
      error_shown (message_of h failure) d
    | Responded false (Parsed payload) =>
      match ToString (or_else (GetOptional payload p_error)
                        (JStr CANNOT_RETRIEVE_MESSAGE)) with
      | Normal m => error_shown m d
      | Throw failure => error_shown (message_of h failure) d
      end
    | Responded true (Parsed data) => result_rendered data d
    end.

Definition reacted (h : host) (ev : event) (d : page) : page :=
  match ev with
  | Load scripts => hydrated scripts d
  | Edit s => edited s d
  | Submit => if listens_submit h d then begun d else d
  | Settle outcome => settled h outcome d
  end.

Definition issued (h : host) (ev : event) (d : page) : option request :=
  match ev with
  | Submit =>
    if listens_submit h d then option_map track_request (entered_barcode d)
    else None
  | _ => None
  end.

(** ** Observations used by the further properties *)

(** Which elements a page has. *)
Definition shape (d : page) : list bool :=
  [match form d with Some _ => true | None => false end;
   match barcodeInput d with Some _ => true | None => false end;
   match resultsPanel d with Some _ => true | None => false end;
   match summaryContainer d with Some _ => true | None => false end;
   match timelineContainer d with Some _ => true | None => false end;
   match rawSection d with Some _ => true | None => false end;
   match rawPre d with Some _ => true | None => false end;
   match errorBox d with Some _ => true | None => false end;
   match successBox d with Some _ => true | None => false end;
   match loadingOverlay d with Some _ => true | None => false end].

(** What the barcode field holds. *)
Definition field_value (d : page) : option jsstring :=
  option_map input_value (barcodeInput d).

(** A statement that leaves an observation of the page as it was,
    however it ends. *)
Definition preserves {T A : Type} (obs : page -> T) (m : action A) : Prop :=
  forall d, obs (fst (m d)) = obs d.

(** The three display regions. *)
Definition views (d : page)
  : option (list node) * option (list node) * option raw_section :=
  (summaryContainer d, timelineContainer d, rawSection d).

(** An embedded script that hydration passes over: missing, blank,
    malformed, or holding a falsy value. *)
Definition inert (s : option script) : bool :=
  match s with
  | None => true
  | Some Blank => true
  | Some Malformed => true
  | Some (Holds v) => falsy v
  end.

Definition effective (s : option script) : option script :=
  if inert s then None else s.

(** The message a failed network call is reported with: the message of
    what was thrown, or, for a parsed non-2xx body, the string form of
    its error member or the fallback. *)
Definition failure_text (h : host) (outcome : fetch_outcome)
  : option jsstring :=
  match outcome with
  | Rejected failure => Some (message_of h failure)
  | Responded _ (Unparsable failure) => Some (message_of h failure)
  | Responded false (Parsed payload) =>
    Some match ToString (or_else (GetOptional payload p_error)
                           (JStr CANNOT_RETRIEVE_MESSAGE)) with
         | Normal m => m
         | Throw failure => message_of h failure
         end
  | Responded true (Parsed _) => None
  end.

(** A result object whose four summary fields are strings or absent,
    nothing being said of its events. *)
Definition has_summary_fields (data : json) : bool :=
  match data with
  | JObj _ =>
    forallb (fun p => optional_string (GetOptional data p))
      [p_barcode; p_current_status; p_sender; p_receiver]
  | _ => false
  end.

(** A summary field of any JSON type that can be shown: falsy, or with a
    string form. *)
Definition showable (v : option json) : bool :=
  match v with
  | None => true
  | Some x => negb (ToBoolean v) || printable x
  end.

(** The (label, shown text) pairs of the truthy fields, in field order,
    values of any type shown through their string form. *)
Fixpoint truthy_pairs (data : json) (fields : list (jsstring * property))
  : list (jsstring * jsstring) :=
  match fields with
  | [] => []
  | (label, p) :: r =>
    if ToBoolean (GetOptional data p) then
      match GetOptional data p with
      | Some x =>
        match ToString x with
        | Normal s => (label, s) :: truthy_pairs data r
        | Throw _ => truthy_pairs data r
        end
      | None => truthy_pairs data r
      end
    else truthy_pairs data r
  end.

Definition truthy_count (data : json) : nat :=
  List.length
    (filter (fun lp : jsstring * property =>
               ToBoolean (GetOptional data (snd lp))) summary_fields).

Definition value_entry (index : nat) (pair : jsstring * jsstring) : node :=
  Element "div" "summary-item reveal"
    (Some {| stagger_index := index; stagger_step := 8 |})
    [Element "span" "summary-label" None (text (fst pair));
     Element "span" "summary-value" None (text (snd pair))].

(** A result with a numeric barcode, a zero sender and a null event. *)
Definition odd_result : json :=
  JObj [(lit "barcode", JNum (lit "12345"));
        (lit "sender", JNum (lit "0"));
        (lit "receiver", JStr (lit "Sara"));
        (lit "events",
         JArr [JObj [(lit "date", JStr (lit "1403/01/02"))]; JNull])].

(** The children [renderSummary] builds for a result, or the abrupt
    completion of building them: the part of the function that does not
    touch the page. *)
Definition summary_children (data : json) : completion (list node) :=
  cbind (Get data p_barcode) (fun barcode =>
  cbind (Get data p_current_status) (fun current_status =>
  cbind (Get data p_sender) (fun sender =>
  cbind (Get data p_receiver) (fun receiver =>
  match
    filter (fun item : jsstring * option json => ToBoolean (snd item))
      [(LABEL_BARCODE, barcode); (LABEL_STATUS, current_status);
       (LABEL_SENDER, sender); (LABEL_RECEIVER, receiver)]
  with
  | [] => Normal [empty_state NO_SUMMARY_TITLE NO_SUMMARY_MESSAGE]
  | item :: items => forEach summary_item 0 (item :: items)
  end)))).

(** The same for [renderTimeline]. *)
Definition timeline_children (events : option json)
  : completion (list node) :=
  match events with
  | None => Normal [empty_state EMPTY_TITLE EMPTY_MESSAGE]
  | Some v =>
    if negb (ToBoolean events) || negb (has_length v)
    then Normal [empty_state EMPTY_TITLE EMPTY_MESSAGE]
    else
      match v with
      | JArr items =>
        cbind (forEach timeline_item 0 items) (fun list =>
        Normal [Element "ol" "timeline-list" None list])
      | _ => Throw (TypeError (NotAFunction (lit "events.forEach")))
      end
  end.

(** The events a result carries, a null event at position [length good]
    behind well-formed ones. *)
Definition events_with_null (good rest : list json) : json :=
  JArr (good ++ JNull :: rest).

(** A result whose second event is null. *)
Definition null_event_result : json :=
  JObj [(lit "barcode", JStr (lit "PKG1"));
        (lit "events",
         events_with_null [JObj [(lit "date", JStr (lit "1403/01/02"))]] [])].

(** What no handler but the edit itself may change: which elements the
    page has and what the field holds. *)
Definition kept (d : page) : list bool * option jsstring :=
  (shape d, field_value d).

(** * Lemmas *)

(** ** The helpers reach their closed forms *)

Ltac run :=
  unfold bind, read, modify, ret, lift, throw, try_catch, try_finally;
  simpl.

Lemma bind_normal {A B} (m : action A) (k : A -> action B) d d' a :
  m d = (d', Normal a) -> bind m k d = k a d'.
Proof. intros E. unfold bind. rewrite E. reflexivity. Qed.

Lemma clearSuccess_state d : clearSuccess d = (success_cleared d, Normal tt).
Proof.
  unfold clearSuccess, success_cleared. run.
  destruct (successBox d); reflexivity.
Qed.

Lemma showSuccess_state message d :
  showSuccess message d = (success_shown message d, Normal tt).
Proof.
  unfold showSuccess, success_shown. run.
  destruct (successBox d); reflexivity.
Qed.

Lemma toggleLoading_state state d :
  toggleLoading state d = (loading_set state d, Normal tt).
Proof.
  unfold toggleLoading, loading_set. run.
  destruct (loadingOverlay d); reflexivity.
Qed.

Lemma showError_state message d :
  showError (JStr message) d = (error_shown message d, Normal tt).
Proof.
  unfold showError, error_shown, error_set, mark_field, reveal_panel. run.
  destruct d as [f rp sc tc rs eb sb lo]; simpl.
  destruct eb as [b|]; [|reflexivity].
  destruct message as [|c r]; simpl;
    destruct f as [[i|]|]; simpl; destruct rp; reflexivity.
Qed.

(** *** Summary *)

Lemma nonempty_truthy v :
  optional_string v = true ->
  ToBoolean v = match nonempty_string v with Some _ => true | None => false end.
Proof.
  destruct v as [[| | |[|]| |]|]; simpl; intros; congruence.
Qed.

Lemma nonempty_as_text v s :
  nonempty_string v = Some s -> as_text v = Normal s.
Proof.
  destruct v as [[| | |[|]| |]|]; simpl; intros E; inversion E; reflexivity.
Qed.

Lemma summary_items_numbered members fields index :
  forallb (fun lp : jsstring * property =>
             optional_string (own members (property_name (snd lp))))
    fields = true ->
  forEach summary_item index
    (filter (fun item : jsstring * option json => ToBoolean (snd item))
       (map (fun lp : jsstring * property =>
               (fst lp, own members (property_name (snd lp)))) fields))
  = Normal
      (numbered summary_entry index (present_pairs (JObj members) fields)).
Proof.
  revert index. induction fields as [|[label p] r IH]; intros index H.
  - reflexivity.
  - simpl in H. apply andb_true_iff in H. destruct H as [Hp Hr].
    simpl. rewrite (nonempty_truthy _ Hp).
    destruct (nonempty_string (own members (property_name p))) as [s|] eqn:E.
    + simpl. unfold summary_item at 1. simpl.
      rewrite (nonempty_as_text _ _ E). simpl.
      rewrite (IH (S index) Hr). simpl.
      destruct s; [destruct (own members (property_name p))
                     as [[| | |[|]| |]|]; discriminate|].
      reflexivity.
    + apply IH. exact Hr.
Qed.

Lemma forEach_length {A : Type} (f : nat -> A -> completion node) l :
  forall index ns, forEach f index l = Normal ns -> length ns = length l.
Proof.
  induction l as [|x r IH]; intros index ns E; simpl in E.
  - inversion E. reflexivity.
  - destruct (f index x); [|discriminate]. simpl in E.
    destruct (forEach f (S index) r) eqn:R; [|discriminate].
    inversion E. simpl. f_equal. eapply IH. exact R.
Qed.

Lemma renderSummary_unfold members d :
  renderSummary (JObj members) d
  = match summaryContainer d with
    | None => (d, Normal tt)
    | Some _ =>
      let d0 := set_summaryContainer (Some []) d in
      match summary_items members with
      | [] => (append_summary [summary_placeholder] d0, Normal tt)
      | items =>
        match forEach summary_item 0 items with
        | Normal fragment => (append_summary fragment d0, Normal tt)
        | Throw e => (d0, Throw e)
        end
      end
    end.
Proof.
  unfold renderSummary, bind, read, lift, modify, ret, Get.
  destruct (summaryContainer d); [|reflexivity].
  change (filter _ _) with (summary_items members).
  destruct (summary_items members); [reflexivity|].
  destruct (forEach summary_item 0 _); reflexivity.
Qed.

Lemma renderSummary_state data d :
  is_tracking_result data = true ->
  renderSummary data d = (summary_rendered data d, Normal tt).
Proof.
  intros H. destruct data as [| | | | |members]; try discriminate.
  unfold is_tracking_result in H. apply andb_true_iff in H.
  destruct H as [H _].
  pose proof (summary_items_numbered members summary_fields 0 H) as F.
  fold (summary_items members) in F.
  rewrite renderSummary_unfold. unfold summary_rendered, summary_view.
  destruct d as [f rp [old|] tc rs eb sb lo]; [|reflexivity].
  cbv zeta. pose proof (forEach_length _ _ _ _ F) as L.
  destruct (summary_items members) as [|it its];
    [|rewrite F];
    destruct (present_pairs (JObj members) summary_fields) as [|pr prs];
    try discriminate; reflexivity.
Qed.

(** *** Timeline *)

Lemma text_or_shown v placeholder :
  optional_string v = true ->
  text_or v placeholder = Normal (shown_or v placeholder).
Proof.
  destruct v as [[| | |[|]| |]|]; simpl; intros; try discriminate;
    reflexivity.
Qed.

Lemma shown_or_text v placeholder :
  placeholder <> [] ->
  text (shown_or v placeholder) = [Text (shown_or v placeholder)].
Proof.
  intros N. unfold shown_or.
  destruct v as [[| | |[|]| |]|]; simpl;
    try (destruct placeholder; [congruence|reflexivity]); reflexivity.
Qed.

Lemma timeline_item_entry index e :
  is_timeline_event e = true ->
  timeline_item index e = Normal (timeline_entry index e).
Proof.
  destruct e as [| | | | |members]; try discriminate.
  unfold is_timeline_event, forallb. intros H.
  repeat (apply andb_true_iff in H; let H1 := fresh "H" in
          destruct H as [H1 H]).
  unfold timeline_item, timeline_entry, Get, cbind.
  unfold GetOptional in *.
  rewrite !text_or_shown by assumption.
  rewrite !shown_or_text by discriminate.
  reflexivity.
Qed.

Lemma timeline_items_numbered items :
  forallb is_timeline_event items = true ->
  forall index,
    forEach timeline_item index items
    = Normal (numbered timeline_entry index items).
Proof.
  induction items as [|e r IH]; intros H index.
  - reflexivity.
  - simpl in H. apply andb_true_iff in H. destruct H as [He Hr].
    simpl. rewrite (timeline_item_entry _ _ He). simpl.
    rewrite (IH Hr). reflexivity.
Qed.

Lemma renderTimeline_state events d :
  is_event_sequence events = true ->
  renderTimeline events d
  = (timeline_rendered (events_of events) d, Normal tt).
Proof.
  intros H. unfold renderTimeline, renderEmpty, timeline_rendered,
    timeline_view, bind, read, modify, ret, lift.
  destruct d as [f rp sc [old|] rs eb sb lo]; [|reflexivity].
  destruct events as [[| | | |[|e r]|]|]; try discriminate; try reflexivity.
  cbn [is_event_sequence] in H.
  cbn [ToBoolean has_length negb orb events_of].
  rewrite (timeline_items_numbered _ H). reflexivity.
Qed.

(** *** Raw view *)

Lemma truthy_not_falsy v : ToBoolean (Some v) = negb (falsy v).
Proof. destruct v as [|[|]|t|s| |]; reflexivity. Qed.

Lemma or_else_raw_payload data :
  or_else (GetOptional data p_raw_response) data = raw_payload data.
Proof.
  unfold or_else, raw_payload.
  destruct (GetOptional data p_raw_response) as [v|]; [|reflexivity].
  rewrite truthy_not_falsy. destruct (falsy v); reflexivity.
Qed.

Lemma Get_optional data p :
  data <> JNull -> Get data p = Normal (GetOptional data p).
Proof. destruct data; intros N; try reflexivity. congruence. Qed.

Lemma renderRawResponse_state data d :
  data <> JNull ->
  renderRawResponse data d = (raw_rendered data d, Normal tt).
Proof.
  intros N. unfold renderRawResponse, raw_rendered, rawPre, raw_view,
    bind, read, modify, ret, lift.
  destruct (rawSection d) as [[hid [t|]]|]; try reflexivity.
  cbn [pre]. rewrite (Get_optional _ _ N), or_else_raw_payload. reflexivity.
Qed.

(** *** A whole result *)

Lemma tracking_result_not_null data :
  is_tracking_result data = true -> data <> JNull.
Proof. destruct data; simpl; congruence. Qed.

Lemma tracking_result_events data :
  is_tracking_result data = true ->
  is_event_sequence (GetOptional data p_events) = true.
Proof.
  destruct data; try discriminate. unfold is_tracking_result.
  intros H. apply andb_true_iff in H. apply H.
Qed.

Lemma or_else_events events :
  is_event_sequence events = true ->
  is_event_sequence (Some (or_else events (JArr []))) = true
  /\ events_of (Some (or_else events (JArr []))) = events_of events.
Proof.
  destruct events as [[| | | |[|e r]|]|]; simpl; intros; try discriminate;
    split; reflexivity || assumption.
Qed.

Tactic Notation "step" uconstr(L) := erewrite bind_normal; [|eapply L].

Lemma renderResult_state data d :
  is_tracking_result data = true ->
  renderResult data d = (result_rendered data d, Normal tt).
Proof.
  intros H. unfold renderResult, result_rendered.
  unfold bind at 1, read.
  destruct (resultsPanel d) as [rp|]; [|reflexivity].
  erewrite bind_normal; [|reflexivity].
  step clearSuccess_state. step showError_state.
  step (renderSummary_state _ _ H).
  erewrite bind_normal;
    [|unfold lift; rewrite (Get_optional _ _ (tracking_result_not_null _ H));
      reflexivity].
  destruct (or_else_events _ (tracking_result_events _ H)) as [Hs He].
  step (renderTimeline_state _ _ Hs). rewrite He.
  step (renderRawResponse_state _ _ (tracking_result_not_null _ H)).
  apply showSuccess_state.
Qed.

(** ** The loading indicator is written by [toggleLoading] alone

    Whatever the payload, and whether a statement ends normally or
    abruptly, nothing but [toggleLoading] touches the indicator. *)

Create HintDb loading.

Lemma keeps_ret {A} (a : A) : keeps_loading (ret a).
Proof. intros d. reflexivity. Qed.

Lemma keeps_throw {A} e : keeps_loading (@throw A e).
Proof. intros d. reflexivity. Qed.

Lemma keeps_lift {A} (c : completion A) : keeps_loading (lift c).
Proof. intros d. reflexivity. Qed.

Lemma keeps_read {A} (f : page -> A) : keeps_loading (read f).
Proof. intros d. reflexivity. Qed.

Lemma keeps_modify f :
  (forall d, loadingOverlay (f d) = loadingOverlay d) ->
  keeps_loading (modify f).
Proof. intros F d. apply F. Qed.

Lemma keeps_bind {A B} (m : action A) (k : A -> action B) :
  keeps_loading m -> (forall a, keeps_loading (k a)) ->
  keeps_loading (bind m k).
Proof.
  intros Hm Hk d. unfold bind. specialize (Hm d).
  destruct (m d) as [d' [a|e]]; simpl in *.
  - rewrite Hk. exact Hm.
  - exact Hm.
Qed.

Lemma keeps_try_catch body handler :
  keeps_loading body -> (forall e, keeps_loading (handler e)) ->
  keeps_loading (try_catch body handler).
Proof.
  intros Hb Hh d. unfold try_catch. specialize (Hb d).
  destruct (body d) as [d' [a|e]]; simpl in *.
  - exact Hb.
  - rewrite Hh. exact Hb.
Qed.

Lemma append_summary_loading c d :
  loadingOverlay (append_summary c d) = loadingOverlay d.
Proof. unfold append_summary. destruct (summaryContainer d); reflexivity. Qed.

Lemma append_timeline_loading c d :
  loadingOverlay (append_timeline c d) = loadingOverlay d.
Proof.
  unfold append_timeline. destruct (timelineContainer d); reflexivity.
Qed.

#[local] Hint Resolve keeps_ret keeps_throw keeps_lift keeps_read
  keeps_bind keeps_try_catch : loading.

Ltac frame :=
  repeat
    match goal with
    | |- keeps_loading (bind _ _) => apply keeps_bind
    | |- keeps_loading (modify _) =>
      apply keeps_modify; intros;
      solve [reflexivity | apply append_summary_loading
             | apply append_timeline_loading]
    | |- keeps_loading (match ?x with _ => _ end) => destruct x
    | |- keeps_loading (if ?x then _ else _) => destruct x
    | |- forall _, _ => intro
    | |- _ => solve [auto with loading]
    end.

Lemma clearSuccess_keeps : keeps_loading clearSuccess.
Proof. unfold clearSuccess. frame. Qed.

Lemma showError_keeps message : keeps_loading (showError message).
Proof. unfold showError. frame. Qed.

Lemma showSuccess_keeps message : keeps_loading (showSuccess message).
Proof. unfold showSuccess. frame. Qed.

Lemma renderEmpty_keeps : keeps_loading renderEmpty.
Proof. unfold renderEmpty. frame. Qed.

#[local] Hint Resolve clearSuccess_keeps showError_keeps showSuccess_keeps
  renderEmpty_keeps : loading.

Lemma renderSummary_keeps data : keeps_loading (renderSummary data).
Proof. unfold renderSummary. frame. Qed.

Lemma renderTimeline_keeps events : keeps_loading (renderTimeline events).
Proof. unfold renderTimeline. frame. Qed.

Lemma renderRawResponse_keeps data : keeps_loading (renderRawResponse data).
Proof. unfold renderRawResponse. frame. Qed.

#[local] Hint Resolve renderSummary_keeps renderTimeline_keeps
  renderRawResponse_keeps : loading.

Lemma renderResult_keeps data : keeps_loading (renderResult data).
Proof. unfold renderResult. frame. Qed.

#[local] Hint Resolve renderResult_keeps : loading.

Lemma loading_set_present state d ov :
  loadingOverlay d = Some ov ->
  loadingOverlay (loading_set state d) = Some (negb state).
Proof. unfold loading_set. intros E. rewrite E. reflexivity. Qed.

(** Once resumed, the listener ends normally and its last act is
    [toggleLoading(false)], whatever the call came to. *)
Lemma submit_settle_finally h outcome d :
  exists d1,
    submit_settle h outcome d = (loading_set false d1, Normal tt)
    /\ loadingOverlay d1 = loadingOverlay d.
Proof.
  unfold submit_settle, try_finally.
  match goal with
  | |- context [try_catch ?b ?k d] =>
    assert (K : keeps_loading (try_catch b k))
      by (apply keeps_try_catch; [destruct outcome as [e|ok [p|e]]; frame
                                 | intro; apply showError_keeps]);
    specialize (K d);
    assert (N : snd (try_catch b k d) = Normal tt);
    [|destruct (try_catch b k d) as [d1 c]]
  end.
  - unfold try_catch.
    match goal with
    | |- context [match ?x with _ => _ end] => destruct x as [d' [[]|e]]
    end; [reflexivity|].
    rewrite showError_state. reflexivity.
  - simpl in N, K. subst c. exists d1.
    rewrite toggleLoading_state. split; [reflexivity|exact K].
Qed.

(** The synchronous part of the listener. *)
Lemma submit_begin_state d :
  submit_begin d
  = match entered_barcode d with
    | Some code =>
      (error_shown [] (loading_set true (success_cleared d)),
       Normal (Some (track_request code)))
    | None =>
      (error_shown ENTER_CODE_MESSAGE (success_cleared d), Normal None)
    end.
Proof.
  unfold submit_begin. step clearSuccess_state.
  unfold bind at 1, read.
  assert (B : barcodeInput (success_cleared d) = barcodeInput d)
    by (unfold success_cleared; destruct (successBox d); reflexivity).
  rewrite B. unfold entered_barcode.
  destruct (barcodeInput d) as [i|]; simpl.
  - destruct (trim (input_value i)) as [|c r].
    + step showError_state. reflexivity.
    + step toggleLoading_state. step showError_state. reflexivity.
  - step showError_state. reflexivity.
Qed.

Lemma submit_settle_success h data d :
  is_tracking_result data = true ->
  submit_settle h (Responded true (Parsed data)) d
  = (loading_set false (result_rendered data d), Normal tt).
Proof.
  intros H. unfold submit_settle, try_finally, try_catch. cbn [negb].
  rewrite (renderResult_state _ _ H), toggleLoading_state. reflexivity.
Qed.

Lemma submit_settle_server_error h payload d :
  optional_string (GetOptional payload p_error) = true ->
  submit_settle h (Responded false (Parsed payload)) d
  = (loading_set false
       (error_shown
          (shown_or (GetOptional payload p_error) CANNOT_RETRIEVE_MESSAGE) d),
     Normal tt).
Proof.
  intros H. unfold submit_settle, try_finally, try_catch. cbn [negb].
  fold (text_or (GetOptional payload p_error) CANNOT_RETRIEVE_MESSAGE).
  unfold bind, lift, throw. rewrite (text_or_shown _ _ H).
  cbn [message_of]. rewrite showError_state, toggleLoading_state.
  reflexivity.
Qed.

Lemma submit_issued h outcome d code :
  entered_barcode d = Some code ->
  submit h outcome d
  = (fst (submit_settle h outcome
            (error_shown [] (loading_set true (success_cleared d)))),
     Normal (Some (track_request code))).
Proof.
  intros E. unfold submit.
  erewrite bind_normal; [|rewrite submit_begin_state, E; reflexivity].
  destruct (submit_settle_finally h outcome
              (error_shown [] (loading_set true (success_cleared d))))
    as [d1 [S _]].
  unfold bind. rewrite S. reflexivity.
Qed.

Lemma shown_or_nonempty v placeholder :
  placeholder <> [] -> is_empty (shown_or v placeholder) = false.
Proof.
  intros N. unfold shown_or.
  destruct v as [[| | |[|]| |]|]; simpl;
    try (destruct placeholder; [congruence|reflexivity]); reflexivity.
Qed.

Ltac all_present d :=
  destruct d as [[[?i|]|] [?rp|] [?sc|] [?tc|] [[?rh [?pr|]]|] [?eb|] [?sb|]
                 [?lo|]];
  try discriminate.

Lemma numbered_length {A : Type} (f : nat -> A -> node) l :
  forall index, List.length (numbered f index l) = List.length l.
Proof.
  induction l as [|x r IH]; intros index; simpl; [|rewrite IH];
    reflexivity.
Qed.

Lemma numbered_nth {A : Type} (f : nat -> A -> node) l :
  forall index i x,
    nth_error l i = Some x ->
    nth_error (numbered f index l) i = Some (f (index + i)%nat x).
Proof.
  induction l as [|y r IH]; intros index i x E.
  - destruct i; discriminate.
  - destruct i as [|i]; simpl in *.
    + inversion E. rewrite Nat.add_0_r. reflexivity.
    + rewrite (IH (S index) i x E). f_equal. f_equal. lia.
Qed.

Lemma present_pairs_count data fields :
  List.length (present_pairs data fields)
  = count_occ bool_dec
      (map (fun lp : jsstring * property =>
              match nonempty_string (GetOptional data (snd lp)) with
              | Some _ => true
              | None => false
              end) fields)
      true.
Proof.
  induction fields as [|[label p] r IH]; [reflexivity|].
  cbn [present_pairs map snd].
  destruct (nonempty_string (GetOptional data p)); simpl;
    rewrite IH; reflexivity.
Qed.

Lemma stringify_object_indent k v members :
  exists rest,
    JSON_stringify (JObj ((k, v) :: members)) 2
    = [123; 10; 32; 32] ++ QuoteJSONString k ++ [58; 32] ++ rest.
Proof.
  unfold JSON_stringify. cbn [Nat.min repeat SerializeJSONProperty map].
  unfold bracket. cbn [is_empty app].
  change (lit "{") with [123]. change (lit ":") with [58].
  destruct (map _ members) as [|part parts].
  - eexists. cbn [join_with app]. rewrite <- !app_assoc. reflexivity.
  - eexists. cbn [join_with app]. rewrite <- !app_assoc. reflexivity.
Qed.

Lemma showError_value e m d :
  ToBoolean (Some e) = true ->
  ToString e = Normal m ->
  showError e d = (error_set m true d, Normal tt).
Proof.
  intros T S. unfold showError, error_set, mark_field, reveal_panel, or_else.
  rewrite T, S. run.
  destruct d as [[[i|]|] [rp|] sc tc rs [eb|] sb lo]; reflexivity.
Qed.

Lemma hydrateInitialState_state scripts d :
  expected (Load scripts) = true ->
  hydrateInitialState scripts d = (hydrated scripts d, Normal tt).
Proof.
  unfold expected, hydrateInitialState, hydrated, printable.
  intros H. apply andb_true_iff in H. destruct H as [Hr He].
  set (result := readJSONScript (initial_tracking scripts)) in *.
  set (error := readJSONScript (initial_error scripts)) in *.
  cbv zeta.
  destruct (ToString error) as [m|] eqn:S; [|discriminate].
  assert (F : forall d0,
             (if ToBoolean (Some error) then showError error
              else ret tt) d0
             = ((if ToBoolean (Some error) then error_set m true d0 else d0),
                Normal tt)).
  { intros d0. destruct (ToBoolean (Some error)) eqn:T; [|reflexivity].
    apply (showError_value _ _ _ T S). }
  destruct (ToBoolean (Some result)) eqn:T.
  - simpl in Hr.
    erewrite bind_normal;
      [|erewrite bind_normal;
        [apply clearSuccess_state|apply (renderResult_state _ _ Hr)]].
    apply F.
  - erewrite bind_normal; [|reflexivity]. apply F.
Qed.

Lemma user_types_state s d : user_types s d = (edited s d, Normal tt).
Proof.
  unfold user_types, edited, on_input. unfold bind at 1, read.
  destruct (barcodeInput d) as [i|] eqn:I; [|reflexivity].
  erewrite bind_normal; [|reflexivity].
  unfold bind at 1, read.
  assert (B : forall j, barcodeInput (set_barcodeInput j d) = Some j)
    by (intros j; destruct d as [[[k|]|] rp sc tc rs eb sb lo];
        try discriminate; reflexivity).
  rewrite B. cbn [input_value has_error].
  destruct (is_empty (trim s)).
  - erewrite bind_normal; [|reflexivity].
    step clearSuccess_state. rewrite showError_state.
    destruct d as [[[k|]|] rp sc tc rs eb sb lo]; reflexivity.
  - erewrite bind_normal; [|reflexivity].
    step clearSuccess_state. apply showError_state.
Qed.

Lemma submit_settle_state h outcome d :
  expected (Settle outcome) = true ->
  submit_settle h outcome d = (settled h outcome d, Normal tt).
Proof.
  intros H. unfold submit_settle, settled, try_finally, try_catch.
  destruct outcome as [e|[|] [payload|e]]; cbn [negb].
  - unfold throw. rewrite showError_state, toggleLoading_state. reflexivity.
  - simpl in H.
    rewrite (renderResult_state _ _ H), toggleLoading_state. reflexivity.
  - unfold throw. rewrite showError_state, toggleLoading_state. reflexivity.
  - unfold bind, lift, throw.
    destruct (ToString _) as [m|e]; cbn [message_of];
      rewrite showError_state, toggleLoading_state; reflexivity.
  - unfold throw. rewrite showError_state, toggleLoading_state. reflexivity.
Qed.

Lemma react_state h ev d :
  expected ev = true ->
  react h ev d = (reacted h ev d, Normal (issued h ev d)).
Proof.
  intros H. destruct ev as [scripts|s| |outcome]; unfold react, reacted, issued.
  - erewrite bind_normal; [|apply (hydrateInitialState_state _ _ H)].
    reflexivity.
  - erewrite bind_normal; [|apply user_types_state]. reflexivity.
  - destruct (listens_submit h d); [|reflexivity].
    rewrite submit_begin_state. unfold begun.
    destruct (entered_barcode d); reflexivity.
  - erewrite bind_normal; [|apply (submit_settle_state _ _ _ H)].
    reflexivity.
Qed.

(** *** Taking out a self-contained element commutes with every update *)

Ltac by_cases e d :=
  destruct e; try discriminate;
  destruct d as [[[?i|]|] [?rp|] [?sc|] [?tc|] [[?rh [?pr|]]|] [?eb|] [?sb|]
                 [?lo|]];
  reflexivity.

Lemma without_success_cleared e d :
  self_contained e = true ->
  without e (success_cleared d) = success_cleared (without e d).
Proof. intros H. by_cases e d. Qed.

Lemma without_success_shown m e d :
  self_contained e = true ->
  without e (success_shown m d) = success_shown m (without e d).
Proof. intros H. by_cases e d. Qed.

Lemma without_loading_set b e d :
  self_contained e = true ->
  without e (loading_set b d) = loading_set b (without e d).
Proof. intros H. by_cases e d. Qed.

Lemma without_error_set m v e d :
  self_contained e = true ->
  without e (error_set m v d) = error_set m v (without e d).
Proof. intros H. destruct v; by_cases e d. Qed.

Lemma without_error_shown m e d :
  self_contained e = true ->
  without e (error_shown m d) = error_shown m (without e d).
Proof. intros H. apply without_error_set. exact H. Qed.

Lemma without_summary_rendered data e d :
  self_contained e = true ->
  without e (summary_rendered data d) = summary_rendered data (without e d).
Proof. intros H. by_cases e d. Qed.

Lemma without_timeline_rendered events e d :
  self_contained e = true ->
  without e (timeline_rendered events d)
  = timeline_rendered events (without e d).
Proof. intros H. by_cases e d. Qed.

Lemma without_raw_rendered data e d :
  self_contained e = true ->
  without e (raw_rendered data d) = raw_rendered data (without e d).
Proof. intros H. by_cases e d. Qed.

Lemma without_set_resultsPanel v e d :
  self_contained e = true ->
  without e (set_resultsPanel v d) = set_resultsPanel v (without e d).
Proof. intros H. by_cases e d. Qed.

Lemma without_set_barcodeInput j e d :
  self_contained e = true ->
  without e (set_barcodeInput j d) = set_barcodeInput j (without e d).
Proof. intros H. by_cases e d. Qed.

Lemma without_keeps_form e d :
  self_contained e = true ->
  form (without e d) = form d /\ resultsPanel (without e d) = resultsPanel d.
Proof. intros H. destruct e; try discriminate; split; reflexivity. Qed.

Lemma without_result_rendered data e d :
  self_contained e = true ->
  without e (result_rendered data d) = result_rendered data (without e d).
Proof.
  intros H. unfold result_rendered.
  destruct (without_keeps_form e d H) as [_ R]. rewrite R.
  destruct (resultsPanel d); [|reflexivity].
  rewrite without_success_shown, without_raw_rendered,
    without_timeline_rendered, without_summary_rendered,
    without_error_shown, without_success_cleared,
    without_set_resultsPanel by exact H.
  reflexivity.
Qed.

Lemma without_reacted h ev e d :
  self_contained e = true ->
  without e (reacted h ev d) = reacted h ev (without e d)
  /\ issued h ev (without e d) = issued h ev d.
Proof.
  intros H. destruct (without_keeps_form e d H) as [F R].
  assert (B : barcodeInput (without e d) = barcodeInput d)
    by (unfold barcodeInput; rewrite F; reflexivity).
  assert (E : entered_barcode (without e d) = entered_barcode d)
    by (unfold entered_barcode; rewrite B; reflexivity).
  assert (L : listens_submit h (without e d) = listens_submit h d)
    by (unfold listens_submit; rewrite F; reflexivity).
  destruct ev as [scripts|s| |outcome]; unfold reacted, issued.
  - split; [|reflexivity]. unfold hydrated. cbv zeta.
    destruct (ToBoolean (Some (readJSONScript (initial_tracking scripts))));
      destruct (ToBoolean (Some (readJSONScript (initial_error scripts))));
      try destruct (ToString _);
      rewrite ?without_error_set, ?without_success_cleared,
        ?without_result_rendered by exact H;
      reflexivity.
  - split; [|reflexivity]. unfold edited. rewrite B.
    destruct (barcodeInput d); [|reflexivity].
    rewrite without_error_shown, without_success_cleared,
      without_set_barcodeInput by exact H.
    reflexivity.
  - rewrite L, E. split; [|reflexivity].
    destruct (listens_submit h d); [|reflexivity].
    unfold begun. rewrite E.
    destruct (entered_barcode d);
      rewrite ?without_error_shown, ?without_loading_set,
        ?without_success_cleared by exact H;
      reflexivity.
  - split; [|reflexivity]. unfold settled.
    rewrite without_loading_set by exact H. f_equal.
    destruct outcome as [x|[|] [payload|x]];
      try destruct (ToString _);
      rewrite ?without_error_shown, ?without_result_rendered by exact H;
      reflexivity.
Qed.

Lemma renderResult_without_panel data d :
  resultsPanel d = None -> renderResult data d = (d, Normal tt).
Proof.
  intros R. unfold renderResult, bind, read. rewrite R. reflexivity.
Qed.

Lemma showError_without_box message d :
  errorBox d = None -> showError message d = (d, Normal tt).
Proof.
  intros R. unfold showError, bind, read. rewrite R. reflexivity.
Qed.

Lemma showError_leaves_views message d :
  let d' := fst (showError message d) in
  summaryContainer d' = summaryContainer d
  /\ timelineContainer d' = timelineContainer d
  /\ rawSection d' = rawSection d
  /\ successBox d' = successBox d.
Proof.
  unfold showError, bind, read, lift, modify, ret.
  set (visible := ToBoolean (Some message)).
  set (shown := ToString (or_else (Some message) (JStr []))).
  clearbody visible shown.
  destruct d as [[[i|]|] [rp|] sc tc rs [eb|] sb lo];
    destruct shown; destruct visible; cbn; repeat split; reflexivity.
Qed.

(** * Properties *)

(** C1 (as amended).  For every submission whose network call returns an
    HTTP success status with a JSON body that is a TrackingResult, on a
    page holding every element, the controller clears any prior error
    and success state, renders the summary, timeline and raw views from
    the parsed payload, then shows the fixed success message, and the
    loading indicator is off afterward. *)
Theorem successful_response_renders h d code data :
  complete d = true ->
  entered_barcode d = Some code ->
  is_tracking_result data = true ->
  exists d',
    submit h (Responded true (Parsed data)) d
    = (d', Normal (Some (track_request code)))
    /\ shows_result data d'
    /\ loading_off d'.
Proof.
  intros C E H. rewrite (submit_issued _ _ _ _ E).
  rewrite (submit_settle_success _ _ _ H). eexists. split; [reflexivity|].
  clear E. all_present d. unfold shows_result, loading_off.
  repeat split; reflexivity.
Qed.

Lemma successful_response_renders_witness :
  exists d',
    submit chrome (Responded true (Parsed sample_result))
      (fresh_page (lit " PKG1 "))
    = (d', Normal (Some (track_request (lit "PKG1"))))
    /\ shows_result sample_result d'
    /\ loading_off d'.
Proof.
  apply (successful_response_renders chrome (fresh_page (lit " PKG1 "))
           (lit "PKG1") sample_result); reflexivity.
Defined.

(** C1 as worded fails: a body that parses to [null] under a success
    status is not rendered; the TypeError raised on its first property
    read is reported as an error and no success message appears. *)
Lemma null_body_not_rendered :
  let d' := fst (submit chrome (Responded true (Parsed JNull))
                   (fresh_page (lit "PKG1"))) in
  ~ shows_result JNull d'
  /\ summaryContainer d' = Some []
  /\ successBox d' = Some {| textContent := []; hidden := true |}
  /\ option_map hidden (errorBox d') = Some false.
Proof.
  vm_compute. repeat split; try reflexivity.
  intros [_ [E _]]. discriminate E.
Qed.

(** C2.  For every form submission whose barcode field value trims to
    the empty string, no network call is issued, whatever the network
    would have answered, and the validation message is shown at once;
    the failure is purely local. *)
Theorem empty_barcode_fails_locally d i b :
  barcodeInput d = Some i ->
  trim (input_value i) = [] ->
  errorBox d = Some b ->
  exists d',
    submit_begin d = (d', Normal None)
    /\ (forall h outcome, submit h outcome d = (d', Normal None))
    /\ errorBox d'
       = Some {| textContent := ENTER_CODE_MESSAGE; hidden := false |}
    /\ flagged d' = Some true.
Proof.
  intros I T B.
  assert (E : entered_barcode d = None)
    by (unfold entered_barcode; rewrite I, T; reflexivity).
  assert (S : submit_begin d
              = (error_shown ENTER_CODE_MESSAGE (success_cleared d),
                 Normal None))
    by (rewrite submit_begin_state, E; reflexivity).
  eexists. split; [exact S|]. split.
  - intros h outcome. unfold submit. unfold bind at 1. rewrite S.
    reflexivity.
  - destruct d as [[[j|]|] rp sc tc rs [eb|] [sb|] lo];
      try discriminate; destruct rp; split; reflexivity.
Qed.

Lemma empty_barcode_fails_locally_witness :
  exists d',
    submit_begin (fresh_page (lit "   ")) = (d', Normal None)
    /\ (forall h outcome,
          submit h outcome (fresh_page (lit "   ")) = (d', Normal None))
    /\ errorBox d'
       = Some {| textContent := ENTER_CODE_MESSAGE; hidden := false |}
    /\ flagged d' = Some true.
Proof.
  apply (empty_barcode_fails_locally (fresh_page (lit "   "))
           {| input_value := lit "   "; has_error := false |}
           {| textContent := []; hidden := true |}); reflexivity.
Defined.

(** C3 (as amended).  For every submission whose response has a non-2xx
    status and a body that parses, on a page holding every element, the
    error region shows exactly the server-supplied error field when that
    field is a non-empty string, and the generic fallback message when
    it is absent, null or empty; the barcode input is marked as errored
    and the loading indicator is off afterward. *)
Theorem server_error_shown h d code payload :
  complete d = true ->
  entered_barcode d = Some code ->
  optional_string (GetOptional payload p_error) = true ->
  exists d',
    submit h (Responded false (Parsed payload)) d
    = (d', Normal (Some (track_request code)))
    /\ errorBox d'
       = Some {| textContent :=
                   shown_or (GetOptional payload p_error)
                     CANNOT_RETRIEVE_MESSAGE;
                 hidden := false |}
    /\ flagged d' = Some true
    /\ loading_off d'.
Proof.
  intros C E H. rewrite (submit_issued _ _ _ _ E).
  rewrite (submit_settle_server_error _ _ _ H).
  eexists. split; [reflexivity|].
  assert (N : is_empty (shown_or (GetOptional payload p_error)
                          CANNOT_RETRIEVE_MESSAGE) = false)
    by (apply shown_or_nonempty; discriminate).
  clear E. all_present d. unfold loading_off, error_shown.
  rewrite N. repeat split; reflexivity.
Qed.

Lemma server_error_shown_witness :
  exists d',
    submit chrome
      (Responded false (Parsed (JObj [(lit "error", JStr (lit "not found"))])))
      (fresh_page (lit "PKG1"))
    = (d', Normal (Some (track_request (lit "PKG1"))))
    /\ errorBox d'
       = Some {| textContent := lit "not found"; hidden := false |}
    /\ flagged d' = Some true
    /\ loading_off d'.
Proof.
  apply (server_error_shown chrome (fresh_page (lit "PKG1")) (lit "PKG1")
           (JObj [(lit "error", JStr (lit "not found"))])); reflexivity.
Defined.

(** C3 as worded fails: a non-2xx response whose body does not parse
    shows the message of the parse failure, not the generic fallback. *)
Lemma unparsable_error_body_shows_parse_failure :
  let d' :=
    fst (submit chrome
           (Responded false
              (Unparsable (ErrorObject (lit "Unexpected end of JSON input"))))
           (fresh_page (lit "PKG1"))) in
  errorBox d'
  = Some {| textContent := lit "Unexpected end of JSON input";
            hidden := false |}
  /\ option_map textContent (errorBox d') <> Some CANNOT_RETRIEVE_MESSAGE.
Proof.
  vm_compute. split; [reflexivity|discriminate].
Qed.

(** C4 (as amended).  Once the network call has been issued, every exit
    of the submission handler (transport failure, server error,
    success, or an abrupt render) leaves the loading indicator turned
    off; the local validation failure returns before the indicator is
    touched and leaves it as it was. *)
Theorem loading_after_submission h outcome d ov :
  loadingOverlay d = Some ov ->
  (exists d',
     submit_settle h outcome d = (d', Normal tt) /\ loading_off d')
  /\ (exists d' issued,
        submit h outcome d = (d', Normal issued)
        /\ match issued with
           | Some _ => loading_off d'
           | None => entered_barcode d = None /\ loadingOverlay d' = Some ov
           end).
Proof.
  intros L. split.
  - destruct (submit_settle_finally h outcome d) as [d1 [S K]].
    exists (loading_set false d1). split; [exact S|].
    unfold loading_off.
    apply (loading_set_present false d1 ov). congruence.
  - destruct (entered_barcode d) as [code|] eqn:E.
    + rewrite (submit_issued _ _ _ _ E).
      set (d0 := error_shown [] (loading_set true (success_cleared d))).
      destruct (submit_settle_finally h outcome d0) as [d1 [S K]].
      exists (loading_set false d1), (Some (track_request code)).
      rewrite S. split; [reflexivity|].
      assert (L0 : loadingOverlay d0 = Some false)
        by (unfold d0; clear E;
            destruct d as [[[i|]|] rp sc tc rs [eb|] [sb|] [lo|]];
            try discriminate; reflexivity).
      unfold loading_off.
      apply (loading_set_present false d1 false). congruence.
    + exists (error_shown ENTER_CODE_MESSAGE (success_cleared d)), None.
      split.
      * unfold submit. unfold bind at 1.
        rewrite submit_begin_state, E. reflexivity.
      * split; [reflexivity|]. clear E.
        destruct d as [[[i|]|] [rp|] sc tc rs [eb|] [sb|] [lo|]];
          try discriminate; exact L.
Qed.

Lemma loading_after_submission_witness :
  (exists d',
     submit_settle chrome (Rejected (ErrorObject (lit "Failed to fetch")))
       (fresh_page (lit "PKG1")) = (d', Normal tt)
     /\ loading_off d')
  /\ (exists d' issued,
        submit chrome (Rejected (ErrorObject (lit "Failed to fetch")))
          (fresh_page (lit "PKG1")) = (d', Normal issued)
        /\ match issued with
           | Some _ => loading_off d'
           | None =>
             entered_barcode (fresh_page (lit "PKG1")) = None
             /\ loadingOverlay d' = Some true
           end).
Proof.
  apply (loading_after_submission chrome
           (Rejected (ErrorObject (lit "Failed to fetch")))
           (fresh_page (lit "PKG1")) true); reflexivity.
Defined.

(** C4 as worded fails on the validation exit.  A first submission is
    in flight, its indicator showing; the visitor clears the field and
    submits again: the handler returns on the validation failure with
    the indicator still on. *)
Lemma validation_exit_leaves_loading_on :
  let d0 := fresh_page (lit "PKG1") in
  let first := submit_begin d0 in
  let d1 := fst (user_types [] (fst first)) in
  let second := submit chrome (Rejected NotAnError) d1 in
  loading_off d0
  /\ snd first = Normal (Some (track_request (lit "PKG1")))
  /\ snd second = Normal None
  /\ loadingOverlay (fst second) = Some false
  /\ ~ loading_off (fst second).
Proof.
  vm_compute. repeat split; try reflexivity. discriminate.
Qed.

(** C5.  For every TrackingResult, the summary view renders exactly k
    entries when k of the four fields barcode, current_status, sender
    and receiver are non-empty, one per non-empty field in that fixed
    order, empty and absent values filtered out, and renders the
    empty-state placeholder block instead when k is zero. *)
Theorem summary_one_entry_per_nonempty_field data d old :
  is_tracking_result data = true ->
  summaryContainer d = Some old ->
  exists shown,
    renderSummary data d = (set_summaryContainer (Some shown) d, Normal tt)
    /\ (nonempty_count data = 0%nat -> shown = [summary_placeholder])
    /\ (nonempty_count data <> 0%nat ->
        List.length shown = nonempty_count data
        /\ forall i label s,
             nth_error (present_pairs data summary_fields) i
             = Some (label, s) ->
             nth_error shown i = Some (summary_entry i (label, s))).
Proof.
  intros H S. rewrite (renderSummary_state _ _ H).
  unfold summary_rendered. rewrite S. eexists. split; [reflexivity|].
  unfold nonempty_count. rewrite <- present_pairs_count.
  unfold summary_view.
  destruct (present_pairs data summary_fields) as [|pr prs].
  - split; [reflexivity|]. intros N. elim N. reflexivity.
  - split; [discriminate|]. intros _. split.
    + apply numbered_length.
    + intros i label s E. apply (numbered_nth summary_entry _ 0 i _ E).
Qed.

Lemma summary_one_entry_per_nonempty_field_witness :
  exists shown,
    renderSummary sample_result (fresh_page [])
    = (set_summaryContainer (Some shown) (fresh_page []), Normal tt)
    /\ (nonempty_count sample_result = 0%nat -> shown = [summary_placeholder])
    /\ (nonempty_count sample_result <> 0%nat ->
        List.length shown = nonempty_count sample_result
        /\ forall i label s,
             nth_error (present_pairs sample_result summary_fields) i
             = Some (label, s) ->
             nth_error shown i = Some (summary_entry i (label, s))).
Proof.
  apply (summary_one_entry_per_nonempty_field sample_result (fresh_page [])
           []); reflexivity.
Defined.

(** C6.  For every events sequence, the timeline view renders the
    empty-state block when events is absent or empty, and otherwise
    renders exactly one item per event in the exact order received,
    where each of date, time, description and location independently
    falls back to its placeholder when absent. *)
Theorem timeline_one_item_per_event events d old :
  is_event_sequence events = true ->
  timelineContainer d = Some old ->
  exists shown,
    renderTimeline events d
    = (set_timelineContainer (Some shown) d, Normal tt)
    /\ (events_of events = [] -> shown = [timeline_placeholder])
    /\ (events_of events <> [] ->
        exists items,
          shown = [Element "ol" "timeline-list" None items]
          /\ List.length items = List.length (events_of events)
          /\ forall i event,
               nth_error (events_of events) i = Some event ->
               nth_error items i = Some (timeline_entry i event)).
Proof.
  intros H T. rewrite (renderTimeline_state _ _ H).
  unfold timeline_rendered. rewrite T. eexists. split; [reflexivity|].
  unfold timeline_view. destruct (events_of events) as [|e r].
  - split; [reflexivity|]. intros N. elim N. reflexivity.
  - split; [discriminate|]. intros _. eexists. split; [reflexivity|].
    split.
    + apply numbered_length.
    + intros i event E. apply (numbered_nth timeline_entry _ 0 i _ E).
Qed.

Lemma timeline_one_item_per_event_witness :
  exists shown,
    renderTimeline (GetOptional sample_result p_events) (fresh_page [])
    = (set_timelineContainer (Some shown) (fresh_page []), Normal tt)
    /\ (events_of (GetOptional sample_result p_events) = [] ->
        shown = [timeline_placeholder])
    /\ (events_of (GetOptional sample_result p_events) <> [] ->
        exists items,
          shown = [Element "ol" "timeline-list" None items]
          /\ List.length items
             = List.length (events_of (GetOptional sample_result p_events))
          /\ forall i event,
               nth_error (events_of (GetOptional sample_result p_events)) i
               = Some event ->
               nth_error items i = Some (timeline_entry i event)).
Proof.
  apply (timeline_one_item_per_event (GetOptional sample_result p_events)
           (fresh_page []) []); reflexivity.
Defined.

(** C7 (as amended).  For every TrackingResult, indeed for every
    result other than [null], the raw view
    serializes [raw_response], or the whole result when [raw_response]
    is absent or falsy (null, false, zero or the empty string), with
    [JSON.stringify] at a 2-space indent into its panel and makes the
    panel visible; the value serialized is the received one, unmodified.
    An object with at least one member is laid out with its first member
    on a new line behind two spaces. *)
Theorem raw_view_serializes_payload data d s t :
  data <> JNull ->
  rawSection d = Some s ->
  pre s = Some t ->
  renderRawResponse data d
  = (set_rawSection
       (Some {| raw_hidden := false;
                pre := Some (JSON_stringify (raw_payload data) 2) |}) d,
     Normal tt)
  /\ (GetOptional data p_raw_response = None -> raw_payload data = data)
  /\ (forall v,
        GetOptional data p_raw_response = Some v ->
        raw_payload data = if falsy v then data else v)
  /\ (forall k v members,
        raw_payload data = JObj ((k, v) :: members) ->
        exists rest,
          JSON_stringify (raw_payload data) 2
          = [123; 10; 32; 32] ++ QuoteJSONString k ++ [58; 32] ++ rest).
Proof.
  intros N S T. rewrite (renderRawResponse_state _ _ N).
  unfold raw_rendered, rawPre. rewrite S, T. split; [reflexivity|].
  unfold raw_payload. split; [intros E; rewrite E; reflexivity|].
  split; [intros v E; rewrite E; reflexivity|].
  intros k v members E. rewrite E. apply stringify_object_indent.
Qed.

Lemma raw_view_serializes_payload_witness :
  renderRawResponse sample_result (fresh_page [])
  = (set_rawSection
       (Some {| raw_hidden := false;
                pre := Some (JSON_stringify (raw_payload sample_result) 2) |})
       (fresh_page []),
     Normal tt)
  /\ (GetOptional sample_result p_raw_response = None ->
      raw_payload sample_result = sample_result)
  /\ (forall v,
        GetOptional sample_result p_raw_response = Some v ->
        raw_payload sample_result = if falsy v then sample_result else v)
  /\ (forall k v members,
        raw_payload sample_result = JObj ((k, v) :: members) ->
        exists rest,
          JSON_stringify (raw_payload sample_result) 2
          = [123; 10; 32; 32] ++ QuoteJSONString k ++ [58; 32] ++ rest).
Proof.
  apply (raw_view_serializes_payload sample_result (fresh_page [])
           {| raw_hidden := true; pre := Some [] |} []);
    [discriminate | reflexivity | reflexivity].
Defined.

(** C7 as worded fails: a result whose [raw_response] is present and
    holds [false] has the whole result serialized, not [raw_response]. *)
Lemma falsy_raw_response_shows_whole_result :
  let data := JObj [(lit "barcode", JStr (lit "PKG1"));
                    (lit "raw_response", JBool false)] in
  let d' := fst (renderRawResponse data (fresh_page [])) in
  GetOptional data p_raw_response = Some (JBool false)
  /\ rawPre d' = Some (JSON_stringify data 2)
  /\ rawPre d' <> Some (JSON_stringify (stated_raw_payload data) 2).
Proof.
  vm_compute. repeat split; discriminate.
Qed.

(** C8.  Hydration at start-up with a valid embedded initial-tracking
    payload renders all three views, the same as a live submission
    answered with that payload renders them, but the success banner is
    not shown afterward. *)
Theorem hydration_renders_without_banner h scripts data d :
  complete d = true ->
  is_tracking_result data = true ->
  initial_tracking scripts = Some (Holds data) ->
  exists d' c,
    hydrateInitialState scripts d = (d', c)
    /\ summaryContainer d' = Some (summary_view data)
    /\ timelineContainer d'
       = Some (timeline_view (events_of (GetOptional data p_events)))
    /\ rawSection d' = Some (raw_view data)
    /\ (let live := fst (submit_settle h (Responded true (Parsed data)) d) in
        summaryContainer d' = summaryContainer live
        /\ timelineContainer d' = timelineContainer live
        /\ rawSection d' = rawSection live)
    /\ successBox d' = Some {| textContent := []; hidden := true |}.
Proof.
  intros C H S. unfold hydrateInitialState. rewrite S.
  cbn [readJSONScript].
  assert (T : ToBoolean (Some data) = true)
    by (destruct data; try discriminate; reflexivity).
  rewrite T.
  erewrite bind_normal;
    [|erewrite bind_normal;
      [apply clearSuccess_state|apply (renderResult_state _ _ H)]].
  rewrite (submit_settle_success _ _ _ H). cbn [fst].
  set (d1 := success_cleared (result_rendered data d)).
  assert (V : summaryContainer d1 = Some (summary_view data)
              /\ timelineContainer d1
                 = Some (timeline_view (events_of (GetOptional data p_events)))
              /\ rawSection d1 = Some (raw_view data)
              /\ (summaryContainer d1
                  = summaryContainer
                      (loading_set false (result_rendered data d))
                  /\ timelineContainer d1
                     = timelineContainer
                         (loading_set false (result_rendered data d))
                  /\ rawSection d1
                     = rawSection
                         (loading_set false (result_rendered data d)))
              /\ successBox d1
                 = Some {| textContent := []; hidden := true |})
    by (unfold d1; all_present d; repeat split; reflexivity).
  destruct (ToBoolean (Some (readJSONScript (initial_error scripts)))).
  - pose proof (showError_leaves_views
                  (readJSONScript (initial_error scripts)) d1) as F.
    cbv zeta in F.
    destruct (showError (readJSONScript (initial_error scripts)) d1)
      as [d2 c].
    cbn [fst] in F. destruct F as [F1 [F2 [F3 F4]]].
    exists d2, c. rewrite F1, F2, F3, F4. split; [reflexivity|exact V].
  - exists d1, (Normal tt). split; [reflexivity|exact V].
Qed.

Lemma hydration_renders_without_banner_witness :
  exists d' c,
    hydrateInitialState
      {| initial_tracking := Some (Holds sample_result);
         initial_error := None |}
      (fresh_page []) = (d', c)
    /\ summaryContainer d' = Some (summary_view sample_result)
    /\ timelineContainer d'
       = Some (timeline_view
                 (events_of (GetOptional sample_result p_events)))
    /\ rawSection d' = Some (raw_view sample_result)
    /\ (let live :=
          fst (submit_settle chrome
                 (Responded true (Parsed sample_result)) (fresh_page [])) in
        summaryContainer d' = summaryContainer live
        /\ timelineContainer d' = timelineContainer live
        /\ rawSection d' = rawSection live)
    /\ successBox d' = Some {| textContent := []; hidden := true |}.
Proof.
  apply (hydration_renders_without_banner chrome
           {| initial_tracking := Some (Holds sample_result);
              initial_error := None |}
           sample_result (fresh_page [])); reflexivity.
Defined.

(** C9 (as amended).  For events within the external contracts, no
    handler ends abruptly whichever elements are missing.  Absence of
    the summary region, the timeline region, the raw section, the
    success region or the loading indicator makes only the updates of
    that element a no-op: every other element ends in the state it
    would have reached, and the same request is issued.  The other
    elements are not independent: without the results panel the whole
    of a result render is a no-op, without the error region the whole
    of [showError] is, without the [pre] the raw view is, without the
    barcode field no barcode is ever entered, and without the form no
    submit listener is installed. *)
Theorem absent_element_degrades h ev d :
  expected ev = true ->
  (exists d', react h ev d = (d', Normal (issued h ev d)))
  /\ (forall e,
        self_contained e = true ->
        react h ev (without e d)
        = (without e (fst (react h ev d)), snd (react h ev d)))
  /\ (forall data,
        renderResult data (without ResultsPanel d)
        = (without ResultsPanel d, Normal tt))
  /\ (forall message,
        showError message (without ErrorBox d)
        = (without ErrorBox d, Normal tt))
  /\ (forall data,
        renderRawResponse data (without RawPre d)
        = (without RawPre d, Normal tt))
  /\ entered_barcode (without BarcodeInput d) = None
  /\ listens_submit h (without Form d) = false.
Proof.
  intros H. split; [|split; [|split; [|split; [|split; [|split]]]]].
  - eexists. apply (react_state _ _ _ H).
  - intros e S. rewrite !(react_state _ _ _ H). cbn [fst snd].
    destruct (without_reacted h ev e d S) as [R I]. rewrite R, I.
    reflexivity.
  - intros data. apply renderResult_without_panel. reflexivity.
  - intros message. apply showError_without_box. reflexivity.
  - intros data. unfold renderRawResponse, bind, read.
    destruct d as [f rp sc tc [[rh pr]|] eb sb lo]; reflexivity.
  - destruct d as [[[i|]|] rp sc tc rs eb sb lo]; reflexivity.
  - reflexivity.
Qed.

Lemma absent_element_degrades_witness :
  let ev := Settle (Responded true (Parsed sample_result)) in
  let d := fresh_page (lit "PKG1") in
  (exists d', react chrome ev d = (d', Normal (issued chrome ev d)))
  /\ (forall e,
        self_contained e = true ->
        react chrome ev (without e d)
        = (without e (fst (react chrome ev d)), snd (react chrome ev d)))
  /\ (forall data,
        renderResult data (without ResultsPanel d)
        = (without ResultsPanel d, Normal tt))
  /\ (forall message,
        showError message (without ErrorBox d)
        = (without ErrorBox d, Normal tt))
  /\ (forall data,
        renderRawResponse data (without RawPre d)
        = (without RawPre d, Normal tt))
  /\ entered_barcode (without BarcodeInput d) = None
  /\ listens_submit chrome (without Form d) = false.
Proof.
  apply (absent_element_degrades chrome
           (Settle (Responded true (Parsed sample_result)))
           (fresh_page (lit "PKG1"))); reflexivity.
Defined.

(** C9 as worded fails: with the results panel missing, a successful
    response no longer renders the summary, which is another feature
    than the panel. *)
Lemma missing_results_panel_disables_render :
  let ev := Settle (Responded true (Parsed sample_result)) in
  let d := fresh_page (lit "PKG1") in
  expected ev = true
  /\ summaryContainer (fst (react chrome ev (without ResultsPanel d)))
     = Some []
  /\ summaryContainer (without ResultsPanel (fst (react chrome ev d)))
     = Some (summary_view sample_result)
  /\ fst (react chrome ev (without ResultsPanel d))
     <> without ResultsPanel (fst (react chrome ev d)).
Proof.
  vm_compute. repeat split. discriminate.
Qed.

(** C10.  When both embedded payloads are present at start-up, a valid
    result and an error message, both take effect: the result is
    rendered through the full render path and the error is then shown
    on top of it, leaving the error banner visible, the input flagged
    as errored and the success banner hidden. *)
Theorem hydration_result_then_error scripts data e m d :
  complete d = true ->
  is_tracking_result data = true ->
  initial_tracking scripts = Some (Holds data) ->
  initial_error scripts = Some (Holds e) ->
  ToBoolean (Some e) = true ->
  ToString e = Normal m ->
  exists d',
    hydrateInitialState scripts d = (d', Normal tt)
    /\ resultsPanel d' = Some false
    /\ summaryContainer d' = Some (summary_view data)
    /\ timelineContainer d'
       = Some (timeline_view (events_of (GetOptional data p_events)))
    /\ rawSection d' = Some (raw_view data)
    /\ errorBox d' = Some {| textContent := m; hidden := false |}
    /\ flagged d' = Some true
    /\ successBox d' = Some {| textContent := []; hidden := true |}.
Proof.
  intros C H S E T M.
  assert (X : expected (Load scripts) = true).
  { unfold expected, printable. rewrite S, E. cbn [readJSONScript].
    rewrite H, M. rewrite orb_true_r. reflexivity. }
  rewrite (hydrateInitialState_state _ _ X). eexists.
  split; [reflexivity|].
  unfold hydrated. rewrite S, E. cbn [readJSONScript]. rewrite T, M.
  assert (R : ToBoolean (Some data) = true)
    by (destruct data; try discriminate; reflexivity).
  rewrite R. all_present d. repeat split; reflexivity.
Qed.

Lemma hydration_result_then_error_witness :
  exists d',
    hydrateInitialState
      {| initial_tracking := Some (Holds sample_result);
         initial_error := Some (Holds (JStr (lit "bad code"))) |}
      (fresh_page []) = (d', Normal tt)
    /\ resultsPanel d' = Some false
    /\ summaryContainer d' = Some (summary_view sample_result)
    /\ timelineContainer d'
       = Some (timeline_view
                 (events_of (GetOptional sample_result p_events)))
    /\ rawSection d' = Some (raw_view sample_result)
    /\ errorBox d'
       = Some {| textContent := lit "bad code"; hidden := false |}
    /\ flagged d' = Some true
    /\ successBox d' = Some {| textContent := []; hidden := true |}.
Proof.
  apply (hydration_result_then_error
           {| initial_tracking := Some (Holds sample_result);
              initial_error := Some (Holds (JStr (lit "bad code"))) |}
           sample_result (JStr (lit "bad code")) (lit "bad code")
           (fresh_page [])); reflexivity.
Defined.

(** * Further properties of the controller *)

Lemma bind_throw {A B} (m : action A) (k : A -> action B) d d' e :
  m d = (d', Throw e) -> bind m k d = (d', Throw e).
Proof. intros E. unfold bind. rewrite E. reflexivity. Qed.

(** ** Trimming *)

Lemma trimStart_head s c r :
  trimStart s = c :: r -> is_white_space c = false.
Proof.
  induction s as [|x s IH]; simpl; [discriminate|].
  destruct (is_white_space x) eqn:W; [exact IH|].
  intros E. inversion E. subst. exact W.
Qed.

Lemma trimStart_suffix s : exists p, s = p ++ trimStart s.
Proof.
  induction s as [|x s [p IH]]; simpl.
  - exists []. reflexivity.
  - destruct (is_white_space x).
    + exists (x :: p). simpl. f_equal. exact IH.
    + exists []. reflexivity.
Qed.

Lemma trim_ends s c r :
  trim s = c :: r ->
  is_white_space c = false /\ is_white_space (last (c :: r) c) = false.
Proof.
  unfold trim, trimEnd. intros E.
  destruct (trimStart (rev (trimStart s))) as [|x u] eqn:U;
    [discriminate|].
  split.
  - destruct (trimStart_suffix (rev (trimStart s))) as [p P].
    rewrite U in P. apply (f_equal (@rev N)) in P.
    rewrite rev_involutive, rev_app_distr, E in P. simpl in P.
    apply (trimStart_head s c _ P).
  - rewrite <- E. simpl. rewrite last_last.
    apply (trimStart_head _ _ _ U).
Qed.

Lemma trimStart_fixed s :
  match s with [] => True | c :: _ => is_white_space c = false end ->
  trimStart s = s.
Proof.
  destruct s as [|c r]; simpl; [reflexivity|]. intros W. rewrite W.
  reflexivity.
Qed.

Lemma trim_idempotent s : trim (trim s) = trim s.
Proof.
  destruct (trim s) as [|c r] eqn:E; [reflexivity|].
  destruct (trim_ends s c r E) as [H L].
  unfold trim, trimEnd.
  rewrite (trimStart_fixed (c :: r)) by exact H.
  rewrite trimStart_fixed; [apply rev_involutive|].
  destruct (rev (c :: r)) as [|x u] eqn:R.
  - exact I.
  - assert (X : last (c :: r) c = x).
    { rewrite <- (rev_involutive (c :: r)), R. simpl. apply last_last. }
    rewrite <- X. exact L.
Qed.

(** ** The state presenter *)

Lemma showError_any message d :
  showError message d
  = match errorBox d with
    | None => (d, Normal tt)
    | Some _ =>
      match ToString (or_else (Some message) (JStr [])) with
      | Normal shown =>
        (error_set shown (ToBoolean (Some message)) d, Normal tt)
      | Throw e => (d, Throw e)
      end
    end.
Proof.
  unfold showError, error_set, mark_field, reveal_panel, bind, read, lift,
    modify, ret.
  set (visible := ToBoolean (Some message)).
  set (shown := ToString (or_else (Some message) (JStr []))).
  clearbody visible shown.
  destruct d as [[[i|]|] [rp|] sc tc rs [eb|] sb lo];
    destruct shown; destruct visible; reflexivity.
Qed.

Ltac every_page d :=
  destruct d as [[[?i|]|] [?rp|] ?sc ?tc ?rs [?eb|] [?sb|] [?lo|]].

(** X1.  Each of the four presenter operations is idempotent: running
    it a second time with the same argument changes nothing more. *)
Theorem presenter_operations_idempotent d :
  (forall state,
     toggleLoading state (fst (toggleLoading state d))
     = toggleLoading state d)
  /\ clearSuccess (fst (clearSuccess d)) = clearSuccess d
  /\ (forall message,
        showSuccess message (fst (showSuccess message d))
        = showSuccess message d)
  /\ (forall message,
        showError message (fst (showError message d))
        = showError message d).
Proof.
  split; [|split; [|split]].
  - intros state. rewrite !toggleLoading_state. cbn [fst].
    every_page d; reflexivity.
  - rewrite !clearSuccess_state. cbn [fst]. every_page d; reflexivity.
  - intros message. rewrite !showSuccess_state. cbn [fst].
    every_page d; reflexivity.
  - intros message. rewrite (showError_any message d).
    destruct (errorBox d) as [b|] eqn:B.
    + destruct (ToString (or_else (Some message) (JStr []))) as [m|e] eqn:S.
      * cbn [fst]. rewrite showError_any, S.
        destruct (ToBoolean (Some message));
          every_page d; try discriminate; reflexivity.
      * cbn [fst]. rewrite showError_any, B, S. reflexivity.
    + cbn [fst]. rewrite showError_any, B. reflexivity.
Qed.

(** X2.  The presenter operations are independent: the loading toggle,
    the success banner and the error banner can be written in either
    order with the same resulting page. *)
Theorem presenter_operations_commute d state message success :
  fst (toggleLoading state (fst (showError message d)))
  = fst (showError message (fst (toggleLoading state d)))
  /\ fst (toggleLoading state (fst (showSuccess success d)))
     = fst (showSuccess success (fst (toggleLoading state d)))
  /\ fst (toggleLoading state (fst (clearSuccess d)))
     = fst (clearSuccess (fst (toggleLoading state d)))
  /\ fst (showSuccess success (fst (showError message d)))
     = fst (showError message (fst (showSuccess success d)))
  /\ fst (clearSuccess (fst (showError message d)))
     = fst (showError message (fst (clearSuccess d))).
Proof.
  rewrite !toggleLoading_state, !showSuccess_state, !clearSuccess_state.
  cbn [fst]. rewrite !showError_any.
  assert (L : errorBox (loading_set state d) = errorBox d)
    by (every_page d; reflexivity).
  assert (S : errorBox (success_shown success d) = errorBox d)
    by (every_page d; reflexivity).
  assert (C : errorBox (success_cleared d) = errorBox d)
    by (every_page d; reflexivity).
  rewrite L, S, C.
  destruct (errorBox d) as [b|] eqn:B;
    [|cbn [fst]; repeat split; every_page d; reflexivity].
  destruct (ToString (or_else (Some message) (JStr []))) as [m|e];
    cbn [fst];
    [|repeat split; every_page d; reflexivity].
  destruct (ToBoolean (Some message));
    repeat split; every_page d; try discriminate; reflexivity.
Qed.

(** ** The submit listener up to the network call *)

(** X3.  The listener issues a request only for a barcode that is not
    empty once trimmed, and the request carries exactly the trimmed
    value: a POST to /api/track whose body is the object with the single
    member [barcode], the value starting and ending with a code unit
    that is not white space.  Otherwise nothing is issued. *)
Theorem request_carries_trimmed_barcode d :
  match snd (submit_begin d) with
  | Normal (Some q) =>
    exists i c r,
      barcodeInput d = Some i
      /\ trim (input_value i) = c :: r
      /\ is_white_space c = false
      /\ is_white_space (last (c :: r) c) = false
      /\ trim (c :: r) = c :: r
      /\ url q = "/api/track"%string
      /\ method q = "POST"%string
      /\ request_body q
         = [123] ++ QuoteJSONString (lit "barcode") ++ [58]
           ++ QuoteJSONString (c :: r) ++ [125]
  | Normal None => entered_barcode d = None
  | Throw _ => False
  end.
Proof.
  rewrite submit_begin_state. unfold entered_barcode.
  destruct (barcodeInput d) as [i|]; [|reflexivity].
  destruct (trim (input_value i)) as [|c r] eqn:T; [reflexivity|].
  cbn [snd]. exists i, c, r.
  destruct (trim_ends _ _ _ T) as [H L].
  repeat split; try assumption.
  rewrite <- T. apply trim_idempotent.
Qed.

(** X4.  A submission with a barcode turns the loading indicator on and
    hides and empties both banners before the call goes out; it leaves
    the three views, the results panel and the typed value as they
    were.  The error flag of the field is cleared with the error
    banner, and stays when the page has no error region. *)
Theorem submission_starts_clean d code :
  entered_barcode d = Some code ->
  exists d',
    submit_begin d = (d', Normal (Some (track_request code)))
    /\ loadingOverlay d' = option_map (fun _ => false) (loadingOverlay d)
    /\ successBox d'
       = option_map (fun _ => {| textContent := []; hidden := true |})
           (successBox d)
    /\ errorBox d'
       = option_map (fun _ => {| textContent := []; hidden := true |})
           (errorBox d)
    /\ flagged d'
       = match errorBox d with
         | Some _ => option_map (fun _ => false) (flagged d)
         | None => flagged d
         end
    /\ views d' = views d
    /\ resultsPanel d' = resultsPanel d
    /\ field_value d' = field_value d.
Proof.
  intros E. rewrite submit_begin_state, E. eexists.
  split; [reflexivity|]. clear E.
  every_page d; repeat split; reflexivity.
Qed.

Lemma submission_starts_clean_witness :
  exists d',
    submit_begin (fresh_page (lit " PKG1 "))
    = (d', Normal (Some (track_request (lit "PKG1"))))
    /\ loadingOverlay d'
       = option_map (fun _ => false)
           (loadingOverlay (fresh_page (lit " PKG1 ")))
    /\ successBox d'
       = option_map (fun _ => {| textContent := []; hidden := true |})
           (successBox (fresh_page (lit " PKG1 ")))
    /\ errorBox d'
       = option_map (fun _ => {| textContent := []; hidden := true |})
           (errorBox (fresh_page (lit " PKG1 ")))
    /\ flagged d'
       = match errorBox (fresh_page (lit " PKG1 ")) with
         | Some _ =>
           option_map (fun _ => false) (flagged (fresh_page (lit " PKG1 ")))
         | None => flagged (fresh_page (lit " PKG1 "))
         end
    /\ views d' = views (fresh_page (lit " PKG1 "))
    /\ resultsPanel d' = resultsPanel (fresh_page (lit " PKG1 "))
    /\ field_value d' = field_value (fresh_page (lit " PKG1 ")).
Proof.
  apply (submission_starts_clean (fresh_page (lit " PKG1 ")) (lit "PKG1"));
    reflexivity.
Defined.

(** ** The input listener *)

(** X5.  Editing the barcode field hides and empties both banners and
    leaves the three views, the results panel and the loading indicator
    as they were.  The error flag of the field is cleared when the new
    value is blank or the page has an error region; on a page without
    an error region a non-blank edit leaves the flag as it was. *)
Theorem editing_resets_banners s d i :
  barcodeInput d = Some i ->
  exists d',
    user_types s d = (d', Normal tt)
    /\ field_value d' = Some s
    /\ successBox d'
       = option_map (fun _ => {| textContent := []; hidden := true |})
           (successBox d)
    /\ errorBox d'
       = option_map (fun _ => {| textContent := []; hidden := true |})
           (errorBox d)
    /\ flagged d'
       = Some (match errorBox d with
               | Some _ => false
               | None => if is_empty (trim s) then false else has_error i
               end)
    /\ views d' = views d
    /\ resultsPanel d' = resultsPanel d
    /\ loadingOverlay d' = loadingOverlay d.
Proof.
  intros B. rewrite user_types_state. eexists. split; [reflexivity|].
  unfold edited. rewrite B.
  every_page d; try discriminate; inversion B; subst;
    destruct (is_empty (trim s)); repeat split; reflexivity.
Qed.

Lemma editing_resets_banners_witness :
  exists d',
    user_types (lit "PK") (fresh_page (lit "P")) = (d', Normal tt)
    /\ field_value d' = Some (lit "PK")
    /\ successBox d'
       = option_map (fun _ => {| textContent := []; hidden := true |})
           (successBox (fresh_page (lit "P")))
    /\ errorBox d'
       = option_map (fun _ => {| textContent := []; hidden := true |})
           (errorBox (fresh_page (lit "P")))
    /\ flagged d'
       = Some (match errorBox (fresh_page (lit "P")) with
               | Some _ => false
               | None =>
                 if is_empty (trim (lit "PK")) then false
                 else has_error
                        {| input_value := lit "P"; has_error := false |}
               end)
    /\ views d' = views (fresh_page (lit "P"))
    /\ resultsPanel d' = resultsPanel (fresh_page (lit "P"))
    /\ loadingOverlay d' = loadingOverlay (fresh_page (lit "P")).
Proof.
  apply (editing_resets_banners (lit "PK") (fresh_page (lit "P"))
           {| input_value := lit "P"; has_error := false |}); reflexivity.
Defined.

(** ** Hydration *)

Lemma inert_reads_falsy s :
  inert s = true -> ToBoolean (Some (readJSONScript s)) = false.
Proof.
  destruct s as [[|v|]|]; cbn [inert readJSONScript]; try reflexivity.
  intros F. rewrite truthy_not_falsy, F. reflexivity.
Qed.

Lemma effective_reads_same s :
  ToBoolean (Some (readJSONScript (effective s)))
  = ToBoolean (Some (readJSONScript s))
  /\ (ToBoolean (Some (readJSONScript s)) = true ->
      readJSONScript (effective s) = readJSONScript s).
Proof.
  unfold effective. destruct (inert s) eqn:I.
  - rewrite (inert_reads_falsy _ I). split; [reflexivity|discriminate].
  - split; reflexivity.
Qed.

(** X6.  An embedded script that is blank, malformed or holds a falsy
    value (null, false, zero, the empty string) counts for hydration
    exactly as a missing one, whatever the other script holds; and with
    both scripts missing hydration leaves the page untouched and ends
    normally. *)
Theorem hydration_passes_over_inert_scripts tracking error d :
  hydrateInitialState
    {| initial_tracking := tracking; initial_error := error |} d
  = hydrateInitialState
      {| initial_tracking := effective tracking;
         initial_error := effective error |} d
  /\ hydrateInitialState
       {| initial_tracking := None; initial_error := None |} d
     = (d, Normal tt).
Proof.
  split; [|reflexivity].
  unfold hydrateInitialState. cbn [initial_tracking initial_error].
  destruct (effective_reads_same tracking) as [T1 T2].
  destruct (effective_reads_same error) as [E1 E2].
  rewrite T1, E1.
  destruct (ToBoolean (Some (readJSONScript tracking)));
    destruct (ToBoolean (Some (readJSONScript error)));
    rewrite ?T2, ?E2 by reflexivity; reflexivity.
Qed.

(** X7.  Hydrating with an error message alone shows that message in the
    error region, flags the field and reveals the results panel, and
    renders nothing: the three views, the success banner and the
    loading indicator stay as they were. *)
Theorem hydration_with_error_only scripts e m d b :
  inert (initial_tracking scripts) = true ->
  initial_error scripts = Some (Holds e) ->
  ToBoolean (Some e) = true ->
  ToString e = Normal m ->
  errorBox d = Some b ->
  exists d',
    hydrateInitialState scripts d = (d', Normal tt)
    /\ errorBox d' = Some {| textContent := m; hidden := false |}
    /\ flagged d' = option_map (fun _ => true) (flagged d)
    /\ resultsPanel d' = option_map (fun _ => false) (resultsPanel d)
    /\ views d' = views d
    /\ successBox d' = successBox d
    /\ loadingOverlay d' = loadingOverlay d
    /\ field_value d' = field_value d.
Proof.
  intros I E T M B. unfold hydrateInitialState.
  rewrite (inert_reads_falsy _ I), E. cbn [readJSONScript]. rewrite T.
  erewrite bind_normal; [|reflexivity].
  rewrite (showError_value _ _ _ T M). eexists. split; [reflexivity|].
  every_page d; try discriminate; repeat split; reflexivity.
Qed.

Lemma hydration_with_error_only_witness :
  exists d',
    hydrateInitialState
      {| initial_tracking := Some Malformed;
         initial_error := Some (Holds (JStr (lit "bad code"))) |}
      (fresh_page []) = (d', Normal tt)
    /\ errorBox d'
       = Some {| textContent := lit "bad code"; hidden := false |}
    /\ flagged d' = option_map (fun _ => true) (flagged (fresh_page []))
    /\ resultsPanel d'
       = option_map (fun _ => false) (resultsPanel (fresh_page []))
    /\ views d' = views (fresh_page [])
    /\ successBox d' = successBox (fresh_page [])
    /\ loadingOverlay d' = loadingOverlay (fresh_page [])
    /\ field_value d' = field_value (fresh_page []).
Proof.
  apply (hydration_with_error_only
           {| initial_tracking := Some Malformed;
              initial_error := Some (Holds (JStr (lit "bad code"))) |}
           (JStr (lit "bad code")) (lit "bad code") (fresh_page [])
           {| textContent := []; hidden := true |}); reflexivity.
Defined.

(** ** The submit listener once the call has settled *)

Lemma submit_settle_failed h outcome d m :
  failure_text h outcome = Some m ->
  submit_settle h outcome d
  = (loading_set false (error_shown m d), Normal tt).
Proof.
  intros F.
  assert (X : expected (Settle outcome) = true)
    by (destruct outcome as [e|[|] [p|e]]; try reflexivity; discriminate).
  rewrite (submit_settle_state _ _ _ X). unfold settled.
  destruct outcome as [e|[|] [p|e]]; simpl in F; try discriminate;
    inversion F; subst; try reflexivity.
  destruct (ToString _); reflexivity.
Qed.

(** X8.  A network call that fails, by rejection, by a body that does
    not parse or by a non-2xx status, is reported in the error region
    with the failure's message and turns the loading indicator off,
    and it leaves the three views and the success banner as they were:
    the last result stays on display.  The region is hidden, and the
    field not flagged, exactly when that message is empty. *)
Theorem failure_keeps_last_result h outcome d m b :
  failure_text h outcome = Some m ->
  errorBox d = Some b ->
  exists d',
    submit_settle h outcome d = (d', Normal tt)
    /\ errorBox d' = Some {| textContent := m; hidden := is_empty m |}
    /\ flagged d' = option_map (fun _ => negb (is_empty m)) (flagged d)
    /\ resultsPanel d'
       = (if is_empty m then resultsPanel d
          else option_map (fun _ => false) (resultsPanel d))
    /\ views d' = views d
    /\ successBox d' = successBox d
    /\ loadingOverlay d' = option_map (fun _ => true) (loadingOverlay d)
    /\ field_value d' = field_value d.
Proof.
  intros F B. rewrite (submit_settle_failed _ _ _ _ F). eexists.
  split; [reflexivity|]. unfold error_shown.
  destruct (is_empty m);
    every_page d; try discriminate; repeat split; reflexivity.
Qed.

Lemma failure_keeps_last_result_witness :
  exists d',
    submit_settle chrome (Rejected NotAnError) (fresh_page (lit "PKG1"))
    = (d', Normal tt)
    /\ errorBox d'
       = Some {| textContent := UNKNOWN_ERROR_MESSAGE;
                 hidden := is_empty UNKNOWN_ERROR_MESSAGE |}
    /\ flagged d'
       = option_map (fun _ => negb (is_empty UNKNOWN_ERROR_MESSAGE))
           (flagged (fresh_page (lit "PKG1")))
    /\ resultsPanel d'
       = (if is_empty UNKNOWN_ERROR_MESSAGE
          then resultsPanel (fresh_page (lit "PKG1"))
          else option_map (fun _ => false)
                 (resultsPanel (fresh_page (lit "PKG1"))))
    /\ views d' = views (fresh_page (lit "PKG1"))
    /\ successBox d' = successBox (fresh_page (lit "PKG1"))
    /\ loadingOverlay d'
       = option_map (fun _ => true)
           (loadingOverlay (fresh_page (lit "PKG1")))
    /\ field_value d' = field_value (fresh_page (lit "PKG1")).
Proof.
  apply (failure_keeps_last_result chrome (Rejected NotAnError)
           (fresh_page (lit "PKG1")) UNKNOWN_ERROR_MESSAGE
           {| textContent := []; hidden := true |}); reflexivity.
Defined.

(** ** Rendering replaces what was there *)

(** X9.  Rendering a result replaces whatever an earlier render left:
    rendering one TrackingResult after another gives the page that
    rendering the second alone gives, so that rendering the same result
    twice changes nothing more and nothing accumulates. *)
Theorem render_replaces_earlier_render first second d :
  is_tracking_result first = true ->
  is_tracking_result second = true ->
  renderResult second (fst (renderResult first d)) = renderResult second d.
Proof.
  intros F S.
  rewrite (renderResult_state _ _ F), !(renderResult_state _ _ S).
  cbn [fst]. f_equal. unfold result_rendered.
  destruct d as [[[i|]|] [rp|] [sc|] [tc|] [[rh [pr|]]|] [eb|] [sb|] lo];
    reflexivity.
Qed.

Lemma render_replaces_earlier_render_witness :
  renderResult sample_result
    (fst (renderResult sample_result (fresh_page [])))
  = renderResult sample_result (fresh_page []).
Proof.
  apply (render_replaces_earlier_render sample_result sample_result
           (fresh_page [])); reflexivity.
Defined.

(** X10.  With two submissions in flight, the response that settles
    last decides the page: once a successful response has settled, the
    page is the one it would have produced alone, whatever the call
    that settled before it came to (another result or any failure). *)
Theorem later_response_wins h earlier data d rp :
  resultsPanel d = Some rp ->
  expected (Settle earlier) = true ->
  is_tracking_result data = true ->
  submit_settle h (Responded true (Parsed data))
    (fst (submit_settle h earlier d))
  = submit_settle h (Responded true (Parsed data)) d.
Proof.
  intros R E H.
  rewrite (submit_settle_state _ _ _ E), !(submit_settle_success _ _ _ H).
  cbn [fst]. f_equal. unfold settled.
  assert (G : forall m,
             loading_set false
               (result_rendered data (loading_set false (error_shown m d)))
             = loading_set false (result_rendered data d)).
  { intros m. unfold error_shown, result_rendered.
    destruct (is_empty m);
      destruct d as [[[i|]|] [p|] [sc|] [tc|] [[rh [pr|]]|] [eb|] [sb|]
                     [lo|]];
      try discriminate; reflexivity. }
  destruct earlier as [e|[|] [p|e]]; try apply G.
  - simpl in E. unfold result_rendered.
    destruct d as [[[i|]|] [q|] [sc|] [tc|] [[rh [pr|]]|] [eb|] [sb|] [lo|]];
      try discriminate; reflexivity.
  - destruct (ToString _); apply G.
Qed.

Lemma later_response_wins_witness :
  submit_settle chrome (Responded true (Parsed sample_result))
    (fst (submit_settle chrome
            (Rejected (ErrorObject (lit "Failed to fetch")))
            (fresh_page (lit "PKG1"))))
  = submit_settle chrome (Responded true (Parsed sample_result))
      (fresh_page (lit "PKG1")).
Proof.
  apply (later_response_wins chrome
           (Rejected (ErrorObject (lit "Failed to fetch"))) sample_result
           (fresh_page (lit "PKG1")) true); reflexivity.
Defined.

(** ** A region is replaced whole or left empty *)

Lemma renderSummary_factored data d :
  renderSummary data d
  = match summaryContainer d with
    | None => (d, Normal tt)
    | Some _ =>
      match summary_children data with
      | Normal children =>
        (set_summaryContainer (Some children) d, Normal tt)
      | Throw e => (set_summaryContainer (Some []) d, Throw e)
      end
    end.
Proof.
  unfold renderSummary, summary_children, bind, read, lift, modify, ret.
  destruct (summaryContainer d) as [old|] eqn:S; [|reflexivity].
  destruct (Get data p_barcode) as [barcode|e]; [|reflexivity].
  destruct (Get data p_current_status) as [current_status|e];
    [|reflexivity].
  destruct (Get data p_sender) as [sender|e]; [|reflexivity].
  destruct (Get data p_receiver) as [receiver|e]; [|reflexivity].
  cbn [cbind].
  destruct (filter _ _) as [|item items].
  - destruct d as [f rp [sc|] tc rs eb sb lo]; [reflexivity|discriminate].
  - destruct (forEach summary_item 0 (item :: items)); [|reflexivity].
    destruct d as [f rp [sc|] tc rs eb sb lo]; [reflexivity|discriminate].
Qed.

Lemma renderTimeline_factored events d :
  renderTimeline events d
  = match timelineContainer d with
    | None => (d, Normal tt)
    | Some _ =>
      match timeline_children events with
      | Normal children =>
        (set_timelineContainer (Some children) d, Normal tt)
      | Throw e => (set_timelineContainer (Some []) d, Throw e)
      end
    end.
Proof.
  unfold renderTimeline, renderEmpty, timeline_children, bind, read, lift,
    modify, ret, throw.
  destruct d as [f rp sc [old|] rs eb sb lo]; [|reflexivity].
  cbn [timelineContainer].
  destruct events as [v|]; [|reflexivity].
  destruct (negb (ToBoolean (Some v)) || negb (has_length v));
    [reflexivity|].
  destruct v; try reflexivity.
  destruct (forEach timeline_item 0 items); reflexivity.
Qed.

Lemma renderRawResponse_factored data d :
  renderRawResponse data d
  = match rawPre d with
    | None => (d, Normal tt)
    | Some _ =>
      match Get data p_raw_response with
      | Normal raw_response =>
        (set_rawSection
           (Some {| raw_hidden := false;
                    pre := Some (JSON_stringify
                                   (or_else raw_response data) 2) |}) d,
         Normal tt)
      | Throw e => (d, Throw e)
      end
    end.
Proof.
  unfold renderRawResponse, rawPre, bind, read, lift, modify.
  destruct (rawSection d) as [[hid [t|]]|]; try reflexivity.
  all: cbn [pre]; destruct (Get data p_raw_response); reflexivity.
Qed.

Lemma forEach_nonempty {A : Type} (f : nat -> A -> completion node)
  index x l children :
  forEach f index (x :: l) = Normal children -> children <> [].
Proof.
  intros E. apply forEach_length in E. destruct children; [|discriminate].
  discriminate E.
Qed.

(** X11.  Whatever JSON value it is given, [renderSummary] either
    replaces the whole content of the summary region by at least one
    new child and ends normally, or ends abruptly leaving the region
    empty; [renderTimeline] does the same to the timeline region.
    Neither ever leaves a region partly filled or touches anything
    else on the page. *)
Theorem regions_replaced_whole_or_emptied data events d old old' :
  summaryContainer d = Some old ->
  timelineContainer d = Some old' ->
  ((exists children,
      children <> []
      /\ renderSummary data d
         = (set_summaryContainer (Some children) d, Normal tt))
   \/ (exists e,
         renderSummary data d
         = (set_summaryContainer (Some []) d, Throw e)))
  /\ ((exists children,
         children <> []
         /\ renderTimeline events d
            = (set_timelineContainer (Some children) d, Normal tt))
      \/ (exists e,
            renderTimeline events d
            = (set_timelineContainer (Some []) d, Throw e))).
Proof.
  intros S T. split.
  - rewrite renderSummary_factored, S.
    destruct (summary_children data) as [children|e] eqn:C;
      [left|right; exists e; reflexivity].
    exists children. split; [|reflexivity].
    unfold summary_children in C.
    destruct (Get data p_barcode); [|discriminate].
    destruct (Get data p_current_status); [|discriminate].
    destruct (Get data p_sender); [|discriminate].
    destruct (Get data p_receiver); [|discriminate].
    cbn [cbind] in C. destruct (filter _ _) as [|item items].
    + inversion C. discriminate.
    + apply (forEach_nonempty _ _ _ _ _ C).
  - rewrite renderTimeline_factored, T.
    destruct (timeline_children events) as [children|e] eqn:C;
      [left|right; exists e; reflexivity].
    exists children. split; [|reflexivity].
    unfold timeline_children in C.
    destruct events as [v|]; [|inversion C; discriminate].
    destruct (negb (ToBoolean (Some v)) || negb (has_length v));
      [inversion C; discriminate|].
    destruct v; try discriminate.
    destruct (forEach timeline_item 0 items); [|discriminate].
    inversion C. discriminate.
Qed.

Lemma regions_replaced_whole_or_emptied_witness :
  ((exists children,
      children <> []
      /\ renderSummary odd_result (fresh_page [])
         = (set_summaryContainer (Some children) (fresh_page []),
            Normal tt))
   \/ (exists e,
         renderSummary odd_result (fresh_page [])
         = (set_summaryContainer (Some []) (fresh_page []), Throw e)))
  /\ ((exists children,
         children <> []
         /\ renderTimeline (GetOptional odd_result p_events)
              (fresh_page [])
            = (set_timelineContainer (Some children) (fresh_page []),
               Normal tt))
      \/ (exists e,
            renderTimeline (GetOptional odd_result p_events)
              (fresh_page [])
            = (set_timelineContainer (Some []) (fresh_page []), Throw e))).
Proof.
  apply (regions_replaced_whole_or_emptied odd_result
           (GetOptional odd_result p_events) (fresh_page []) [] []);
    reflexivity.
Defined.

(** ** A null among the events *)

Lemma forEach_null_event good rest :
  forallb is_timeline_event good = true ->
  forall index,
    forEach timeline_item index (good ++ JNull :: rest)
    = Throw (TypeError (NullRead (property_name p_date))).
Proof.
  induction good as [|e r IH]; intros H index.
  - reflexivity.
  - simpl in H. apply andb_true_iff in H. destruct H as [He Hr].
    cbn [app forEach]. rewrite (timeline_item_entry _ _ He).
    cbn [cbind]. rewrite (IH Hr). reflexivity.
Qed.

Lemma renderSummary_fields data d :
  has_summary_fields data = true ->
  renderSummary data d = (summary_rendered data d, Normal tt).
Proof.
  intros H. destruct data as [| | | | |members]; try discriminate.
  unfold has_summary_fields in H.
  pose proof (summary_items_numbered members summary_fields 0 H) as F.
  fold (summary_items members) in F.
  rewrite renderSummary_unfold. unfold summary_rendered, summary_view.
  destruct d as [f rp [old|] tc rs eb sb lo]; [|reflexivity].
  cbv zeta. pose proof (forEach_length _ _ _ _ F) as L.
  destruct (summary_items members) as [|it its];
    [|rewrite F];
    destruct (present_pairs (JObj members) summary_fields) as [|pr prs];
    try discriminate; reflexivity.
Qed.

Lemma renderResult_null_event data good rest d :
  has_summary_fields data = true ->
  GetOptional data p_events = Some (events_with_null good rest) ->
  forallb is_timeline_event good = true ->
  complete d = true ->
  renderResult data d
  = (set_timelineContainer (Some [])
       (summary_rendered data
          (error_shown []
             (success_cleared (set_resultsPanel (Some false) d)))),
     Throw (TypeError (NullRead (property_name p_date)))).
Proof.
  intros H E G C.
  assert (N : data <> JNull) by (destruct data; discriminate).
  unfold renderResult. unfold bind at 1, read.
  destruct (resultsPanel d) as [rp|] eqn:R;
    [|all_present d; discriminate].
  erewrite bind_normal; [|reflexivity].
  step clearSuccess_state. step showError_state.
  step (renderSummary_fields _ _ H).
  erewrite bind_normal;
    [|unfold lift; rewrite (Get_optional _ _ N), E; reflexivity].
  erewrite bind_throw; [reflexivity|].
  rewrite renderTimeline_factored.
  unfold timeline_children, events_with_null.
  cbn [or_else ToBoolean negb orb].
  assert (L : has_length (JArr (good ++ JNull :: rest)) = true)
    by (destruct good; reflexivity).
  rewrite L. cbn [negb]. rewrite (forEach_null_event _ _ G). cbn [cbind].
  clear R. all_present d. reflexivity.
Qed.

(** X12.  A successful response whose events hold a null after
    well-formed ones is rendered by halves: the summary is rendered, the
    timeline is left empty, the raw view keeps what it showed, no
    success message appears and the engine's TypeError for the read of
    [date] is reported in the error region; the loading indicator is
    off afterward. *)
Theorem null_event_renders_by_halves h data good rest d :
  has_summary_fields data = true ->
  GetOptional data p_events = Some (events_with_null good rest) ->
  forallb is_timeline_event good = true ->
  complete d = true ->
  exists d',
    submit_settle h (Responded true (Parsed data)) d = (d', Normal tt)
    /\ summaryContainer d' = Some (summary_view data)
    /\ timelineContainer d' = Some []
    /\ rawSection d' = rawSection d
    /\ successBox d' = Some {| textContent := []; hidden := true |}
    /\ option_map textContent (errorBox d')
       = Some (type_error_message h (NullRead (property_name p_date)))
    /\ loading_off d'.
Proof.
  intros H E G C. unfold submit_settle, try_finally, try_catch.
  cbn [negb]. rewrite (renderResult_null_event _ _ _ _ H E G C).
  cbn [message_of]. rewrite showError_state, toggleLoading_state.
  eexists. split; [reflexivity|]. unfold error_shown.
  destruct (is_empty (type_error_message h _));
    all_present d; unfold loading_off; repeat split; reflexivity.
Qed.

Lemma null_event_renders_by_halves_witness :
  exists d',
    submit_settle chrome
      (Responded true
         (Parsed null_event_result))
      (fresh_page (lit "PKG1")) = (d', Normal tt)
    /\ summaryContainer d'
       = Some (summary_view null_event_result)
    /\ timelineContainer d' = Some []
    /\ rawSection d' = rawSection (fresh_page (lit "PKG1"))
    /\ successBox d' = Some {| textContent := []; hidden := true |}
    /\ option_map textContent (errorBox d')
       = Some (type_error_message chrome
                 (NullRead (property_name p_date)))
    /\ loading_off d'.
Proof.
  apply (null_event_renders_by_halves chrome null_event_result
           [JObj [(lit "date", JStr (lit "1403/01/02"))]] []
           (fresh_page (lit "PKG1"))); reflexivity.
Defined.

(** X13.  Hydration has no handler around the render: an embedded
    result whose events hold a null after well-formed ones makes
    hydration end abruptly with the TypeError, after the summary was
    rendered and the timeline emptied, and the embedded error message,
    whatever it is, is never shown. *)
Theorem hydration_stops_at_null_event scripts data good rest d :
  initial_tracking scripts = Some (Holds data) ->
  has_summary_fields data = true ->
  GetOptional data p_events = Some (events_with_null good rest) ->
  forallb is_timeline_event good = true ->
  complete d = true ->
  exists d',
    hydrateInitialState scripts d
    = (d', Throw (TypeError (NullRead (property_name p_date))))
    /\ summaryContainer d' = Some (summary_view data)
    /\ timelineContainer d' = Some []
    /\ errorBox d' = Some {| textContent := []; hidden := true |}
    /\ successBox d' = Some {| textContent := []; hidden := true |}.
Proof.
  intros S H E G C. unfold hydrateInitialState. rewrite S.
  cbn [readJSONScript].
  assert (T : ToBoolean (Some data) = true)
    by (destruct data; try discriminate; reflexivity).
  rewrite T.
  erewrite bind_throw;
    [|erewrite bind_throw;
      [reflexivity|apply (renderResult_null_event _ _ _ _ H E G C)]].
  eexists. split; [reflexivity|].
  all_present d. repeat split; reflexivity.
Qed.

Lemma hydration_stops_at_null_event_witness :
  exists d',
    hydrateInitialState
      {| initial_tracking := Some (Holds null_event_result);
         initial_error := Some (Holds (JStr (lit "bad code"))) |}
      (fresh_page [])
    = (d', Throw (TypeError (NullRead (property_name p_date))))
    /\ summaryContainer d' = Some (summary_view null_event_result)
    /\ timelineContainer d' = Some []
    /\ errorBox d' = Some {| textContent := []; hidden := true |}
    /\ successBox d' = Some {| textContent := []; hidden := true |}.
Proof.
  apply (hydration_stops_at_null_event
           {| initial_tracking := Some (Holds null_event_result);
              initial_error := Some (Holds (JStr (lit "bad code"))) |}
           null_event_result [JObj [(lit "date", JStr (lit "1403/01/02"))]] []
           (fresh_page [])); reflexivity.
Defined.

(** ** Summary values of any type *)

Lemma truthy_value_text v x s :
  v = Some x -> ToBoolean v = true -> ToString x = Normal s ->
  as_text v = Normal s.
Proof.
  intros E T S. subst v. destruct x; try exact S. discriminate T.
Qed.

Lemma summary_values_numbered data fields :
  forallb (fun lp : jsstring * property =>
             showable (GetOptional data (snd lp))) fields = true ->
  forall index,
    forEach summary_item index
      (filter (fun item : jsstring * option json => ToBoolean (snd item))
         (map (fun lp : jsstring * property =>
                 (fst lp, GetOptional data (snd lp))) fields))
    = Normal (numbered value_entry index (truthy_pairs data fields))
    /\ List.length (truthy_pairs data fields)
       = List.length
           (filter (fun lp : jsstring * property =>
                      ToBoolean (GetOptional data (snd lp))) fields).
Proof.
  induction fields as [|[label p] r IH]; intros H index.
  - split; reflexivity.
  - cbn [forallb snd] in H. apply andb_true_iff in H. destruct H as [Hp Hr].
    cbn [map filter fst snd truthy_pairs].
    destruct (ToBoolean (GetOptional data p)) eqn:T.
    + destruct (GetOptional data p) as [x|] eqn:G; [|discriminate T].
      unfold showable, printable in Hp. rewrite T in Hp. cbn [negb orb] in Hp.
      destruct (ToString x) as [s|] eqn:X; [|discriminate].
      destruct (IH Hr (S index)) as [F L].
      split; [|cbn [List.length]; rewrite L; reflexivity].
      cbn [forEach]. unfold summary_item at 1. cbn [fst snd].
      rewrite (truthy_value_text (Some x) x s eq_refl T X).
      cbn [cbind]. rewrite F. reflexivity.
    + apply (IH Hr index).
Qed.

(** X14.  The summary filters on truthiness, not on type: for a result
    whose four fields are of any JSON type that has a string form, one
    entry is rendered per truthy field, in field order, showing the
    string form of the value (a numeric barcode shows its digits, a
    zero is filtered out like an empty string); with no truthy field
    the placeholder is rendered, so the region holds between one and
    four children. *)
Theorem summary_shows_truthy_values data d old :
  data <> JNull ->
  forallb (fun lp : jsstring * property =>
             showable (GetOptional data (snd lp))) summary_fields = true ->
  summaryContainer d = Some old ->
  exists shown,
    renderSummary data d = (set_summaryContainer (Some shown) d, Normal tt)
    /\ shown
       = match truthy_pairs data summary_fields with
         | [] => [summary_placeholder]
         | first :: others => numbered value_entry 0 (first :: others)
         end
    /\ List.length (truthy_pairs data summary_fields) = truthy_count data
    /\ (1 <= List.length shown <= 4)%nat.
Proof.
  intros N H S.
  destruct (summary_values_numbered data summary_fields H 0) as [F L].
  rewrite renderSummary_factored, S. unfold summary_children.
  rewrite !(Get_optional _ _ N). cbn [cbind].
  change (filter _ [(LABEL_BARCODE, _); _; _; _])
    with (filter (fun item : jsstring * option json => ToBoolean (snd item))
            (map (fun lp : jsstring * property =>
                    (fst lp, GetOptional data (snd lp))) summary_fields)).
  pose proof (forEach_length _ _ _ _ F) as K.
  rewrite numbered_length in K.
  assert (B : (List.length (truthy_pairs data summary_fields) <= 4)%nat).
  { rewrite L. unfold summary_fields. cbn [filter snd].
    repeat (destruct (ToBoolean _)); cbn [List.length]; lia. }
  destruct (filter _ (map _ summary_fields)) as [|item items].
  - destruct (truthy_pairs data summary_fields) as [|first others];
      [|discriminate K].
    eexists. split; [reflexivity|]. split; [reflexivity|].
    split; [exact L|]. cbn [List.length]. lia.
  - rewrite F.
    destruct (truthy_pairs data summary_fields) as [|first others];
      [discriminate K|].
    eexists. split; [reflexivity|]. split; [reflexivity|].
    split; [exact L|]. rewrite numbered_length.
    cbn [List.length] in *. lia.
Qed.

Lemma summary_shows_truthy_values_witness :
  exists shown,
    renderSummary odd_result (fresh_page [])
    = (set_summaryContainer (Some shown) (fresh_page []), Normal tt)
    /\ shown
       = match truthy_pairs odd_result summary_fields with
         | [] => [summary_placeholder]
         | first :: others => numbered value_entry 0 (first :: others)
         end
    /\ List.length (truthy_pairs odd_result summary_fields)
       = truthy_count odd_result
    /\ (1 <= List.length shown <= 4)%nat.
Proof.
  apply (summary_shows_truthy_values odd_result (fresh_page []) []);
    [discriminate | reflexivity | reflexivity].
Defined.

(** ** What no handler changes *)

Lemma preserves_ret {T A} (obs : page -> T) (a : A) : preserves obs (ret a).
Proof. intros d. reflexivity. Qed.

Lemma preserves_throw {T A} (obs : page -> T) e :
  preserves obs (@throw A e).
Proof. intros d. reflexivity. Qed.

Lemma preserves_lift {T A} (obs : page -> T) (c : completion A) :
  preserves obs (lift c).
Proof. intros d. reflexivity. Qed.

Lemma preserves_bind {T A B} (obs : page -> T) (m : action A)
  (k : A -> action B) :
  preserves obs m -> (forall a, preserves obs (k a)) ->
  preserves obs (bind m k).
Proof.
  intros Hm Hk d. unfold bind. specialize (Hm d).
  destruct (m d) as [d' [a|e]]; cbn [fst] in *.
  - rewrite Hk. exact Hm.
  - exact Hm.
Qed.

Lemma preserves_try_catch {T} (obs : page -> T) body handler :
  preserves obs body -> (forall e, preserves obs (handler e)) ->
  preserves obs (try_catch body handler).
Proof.
  intros Hb Hh d. unfold try_catch. specialize (Hb d).
  destruct (body d) as [d' [a|e]]; cbn [fst] in *.
  - exact Hb.
  - rewrite Hh. exact Hb.
Qed.

Lemma preserves_try_finally {T} (obs : page -> T) body cleanup :
  preserves obs body -> preserves obs cleanup ->
  preserves obs (try_finally body cleanup).
Proof.
  intros Hb Hc d. unfold try_finally. specialize (Hb d).
  destruct (body d) as [d' c]. specialize (Hc d').
  destruct (cleanup d') as [d'' [a|e]]; cbn [fst] in *; congruence.
Qed.

Ltac whole_page d :=
  destruct d as [[[?i|]|] [?rp|] [?sc|] [?tc|] [[?rh [?pr|]]|] [?eb|] [?sb|]
                 [?lo|]].

Lemma toggleLoading_kept state : preserves kept (toggleLoading state).
Proof.
  intros d. rewrite toggleLoading_state. whole_page d; reflexivity.
Qed.

Lemma clearSuccess_kept : preserves kept clearSuccess.
Proof. intros d. rewrite clearSuccess_state. whole_page d; reflexivity. Qed.

Lemma showSuccess_kept message : preserves kept (showSuccess message).
Proof. intros d. rewrite showSuccess_state. whole_page d; reflexivity. Qed.

Lemma showError_kept message : preserves kept (showError message).
Proof.
  intros d. rewrite showError_any.
  generalize (ToBoolean (Some message)).
  destruct (ToString _); intros [|]; whole_page d; reflexivity.
Qed.

Lemma renderSummary_kept data : preserves kept (renderSummary data).
Proof.
  intros d. rewrite renderSummary_factored.
  destruct (summary_children data); whole_page d; reflexivity.
Qed.

Lemma renderTimeline_kept events : preserves kept (renderTimeline events).
Proof.
  intros d. rewrite renderTimeline_factored.
  destruct (timeline_children events); whole_page d; reflexivity.
Qed.

Lemma renderRawResponse_kept data : preserves kept (renderRawResponse data).
Proof.
  intros d. rewrite renderRawResponse_factored.
  destruct (Get data p_raw_response); whole_page d; reflexivity.
Qed.

Create HintDb kept.

#[local] Hint Resolve preserves_ret preserves_throw preserves_lift
  preserves_bind preserves_try_catch preserves_try_finally
  toggleLoading_kept clearSuccess_kept showSuccess_kept showError_kept
  renderSummary_kept renderTimeline_kept renderRawResponse_kept : kept.

Ltac keeps :=
  repeat
    lazymatch goal with
    | |- preserves _ (bind _ _) => apply preserves_bind; [|intro]
    | |- preserves _ (if ?b then _ else _) => destruct b
    end;
  auto with kept.

Lemma renderResult_kept data : preserves kept (renderResult data).
Proof.
  intros d. unfold renderResult. unfold bind at 1, read.
  destruct (resultsPanel d) as [rp|] eqn:R; [|reflexivity].
  unfold bind at 1, modify.
  match goal with
  | |- kept (fst (?rest (set_resultsPanel ?v d))) = _ =>
    assert (P : preserves kept rest) by keeps;
    rewrite (P (set_resultsPanel v d))
  end.
  whole_page d; try discriminate; reflexivity.
Qed.

#[local] Hint Resolve renderResult_kept : kept.

Lemma hydrateInitialState_kept scripts :
  preserves kept (hydrateInitialState scripts).
Proof.
  unfold hydrateInitialState. cbv zeta. keeps.
Qed.

Lemma submit_begin_kept : preserves kept submit_begin.
Proof.
  intros d. rewrite submit_begin_state.
  destruct (entered_barcode d); whole_page d; reflexivity.
Qed.

Lemma submit_settle_kept h outcome : preserves kept (submit_settle h outcome).
Proof.
  unfold submit_settle. apply preserves_try_finally; [|auto with kept].
  apply preserves_try_catch; [|auto with kept].
  destruct outcome as [e|ok [payload|e]]; keeps.
Qed.

Lemma user_types_shape s d :
  shape (fst (user_types s d)) = shape d
  /\ field_value (fst (user_types s d))
     = option_map (fun _ => s) (field_value d).
Proof.
  rewrite user_types_state. unfold edited.
  whole_page d; split; reflexivity.
Qed.

Lemma bind_ret_fst {A B} (m : action A) (b : B) d :
  fst (bind m (fun _ => ret b) d) = fst (m d).
Proof. unfold bind, ret. destruct (m d) as [d' [a|e]]; reflexivity. Qed.

(** X15.  No handler creates or removes an element of the page: after
    any event (load, edit, submission, settled call) and whatever
    payload it carries, the page has exactly the elements it had, also
    when the handler ends abruptly. *)
Theorem elements_neither_created_nor_removed h ev d :
  shape (fst (react h ev d)) = shape d.
Proof.
  destruct ev as [scripts|s| |outcome]; unfold react.
  - rewrite bind_ret_fst.
    apply (f_equal fst (hydrateInitialState_kept scripts d)).
  - rewrite bind_ret_fst. apply user_types_shape.
  - destruct (listens_submit h d); [|reflexivity].
    apply (f_equal fst (submit_begin_kept d)).
  - rewrite bind_ret_fst.
    apply (f_equal fst (submit_settle_kept h outcome d)).
Qed.

(** X16.  The controller never rewrites what the visitor typed: the
    value of the barcode field changes with an edit and with nothing
    else; the trimmed barcode goes into the request, not back into the
    field. *)
Theorem typed_value_never_rewritten h ev d :
  field_value (fst (react h ev d))
  = match ev with
    | Edit s => option_map (fun _ => s) (field_value d)
    | _ => field_value d
    end.
Proof.
  destruct ev as [scripts|s| |outcome]; unfold react.
  - rewrite bind_ret_fst.
    apply (f_equal snd (hydrateInitialState_kept scripts d)).
  - rewrite bind_ret_fst. apply user_types_shape.
  - destruct (listens_submit h d); [|reflexivity].
    apply (f_equal snd (submit_begin_kept d)).
  - rewrite bind_ret_fst.
    apply (f_equal snd (submit_settle_kept h outcome d)).
Qed.

(** X17.  Hydration and editing never write the loading indicator,
    whatever is embedded or typed and however the render ends: only a
    submission does. *)
Theorem loading_written_by_submissions_only scripts s d :
  loadingOverlay (fst (hydrateInitialState scripts d)) = loadingOverlay d
  /\ loadingOverlay (fst (user_types s d)) = loadingOverlay d.
Proof.
  split.
  - assert (K : keeps_loading (hydrateInitialState scripts))
      by (unfold hydrateInitialState; frame).
    apply K.
  - rewrite user_types_state. unfold edited.
    whole_page d; reflexivity.
Qed.

(** ** Two more compositions *)

(** X18.  A submission without a barcode (the field blank, or missing
    from the page) issues nothing, hides and empties the success banner
    and shows the validation message, which flags the field and reveals
    the results panel; the three views, the loading indicator and the
    typed value stay as they were.  On a page without an error region
    only the success banner is written. *)
Theorem blank_submission_state d :
  entered_barcode d = None ->
  exists d',
    submit_begin d = (d', Normal None)
    /\ successBox d'
       = option_map (fun _ => {| textContent := []; hidden := true |})
           (successBox d)
    /\ errorBox d'
       = option_map
           (fun _ => {| textContent := ENTER_CODE_MESSAGE; hidden := false |})
           (errorBox d)
    /\ flagged d'
       = match errorBox d with
         | Some _ => option_map (fun _ => true) (flagged d)
         | None => flagged d
         end
    /\ resultsPanel d'
       = match errorBox d with
         | Some _ => option_map (fun _ => false) (resultsPanel d)
         | None => resultsPanel d
         end
    /\ views d' = views d
    /\ loadingOverlay d' = loadingOverlay d
    /\ field_value d' = field_value d.
Proof.
  intros E. rewrite submit_begin_state, E. eexists.
  split; [reflexivity|]. clear E.
  whole_page d; repeat split; reflexivity.
Qed.

Lemma blank_submission_state_witness :
  exists d',
    submit_begin (fresh_page (lit "  ")) = (d', Normal None)
    /\ successBox d'
       = option_map (fun _ => {| textContent := []; hidden := true |})
           (successBox (fresh_page (lit "  ")))
    /\ errorBox d'
       = option_map
           (fun _ => {| textContent := ENTER_CODE_MESSAGE; hidden := false |})
           (errorBox (fresh_page (lit "  ")))
    /\ flagged d'
       = match errorBox (fresh_page (lit "  ")) with
         | Some _ => option_map (fun _ => true) (flagged (fresh_page (lit "  ")))
         | None => flagged (fresh_page (lit "  "))
         end
    /\ resultsPanel d'
       = match errorBox (fresh_page (lit "  ")) with
         | Some _ =>
           option_map (fun _ => false) (resultsPanel (fresh_page (lit "  ")))
         | None => resultsPanel (fresh_page (lit "  "))
         end
    /\ views d' = views (fresh_page (lit "  "))
    /\ loadingOverlay d' = loadingOverlay (fresh_page (lit "  "))
    /\ field_value d' = field_value (fresh_page (lit "  ")).
Proof.
  apply (blank_submission_state (fresh_page (lit "  "))); reflexivity.
Defined.


